(** * The AQI engine of the Air Quality Analyzer API ([main.py])

    A shallow embedding of the CPCB air-quality-index computation and of the
    two endpoints that use it or serve its results:
    - [_calc_sub_index], [sub_index_pm25], [sub_index_pm10]: piecewise-linear
      interpolation over a breakpoint table, rounded to an integer;
    - [aqi_category]: the severity label of an integer index;
    - [ingest_reading]: computes the index of a payload and stores it;
    - [get_history]: the bounded, chronologically ordered window of readings.

    Numbers.  The calculator is embedded twice.  In the first embedding a
    Python [float] is an exact rational ([Q]): the arithmetic of the
    interpolation is exact, and infinities and NaN are not values; it carries
    the properties that do not depend on how an operation is rounded.  Module
    [Binary64] embeds the same function on IEEE 754 double precision numbers,
    every operation rounded to nearest, ties to even, as the interpreter
    computes it; it carries the properties that do.  A Python [int] is a [Z].

    Exceptions.  Code that can raise returns a [result]; the endpoints thread
    the document store through a state-and-exception monad. *)

From Stdlib Require Import QArith Qround Qminmax Lqa ZArith Lia SpecFloat.
From Stdlib Require Import Sorting.Sorted Sorting.Permutation.
From stdpp Require Import gmap strings list fin_maps sorting.

(** ** Exceptions and results *)

Inductive exn : Type :=
  | ZeroDivisionError
  | TypeError
  | HTTPException (status_code : Z) (detail : string).

Inductive result (A : Type) : Type :=
  | Ok (a : A)
  | Raise (e : exn).

Arguments Ok {A} a.
Arguments Raise {A} e.

Definition result_bind {A B : Type} (r : result A) (k : A -> result B) : result B :=
  match r with
  | Ok a => k a
  | Raise e => Raise e
  end.

Declare Scope result_scope.
Delimit Scope result_scope with result.
Notation "x <-? r ; k" := (result_bind r (fun x => k))
  (at level 100, r at next level, right associativity) : result_scope.

(** ** Python built-ins on numbers *)

Local Open Scope Q_scope.

Definition Qltb (a b : Q) : bool := negb (Qle_bool b a).

(** [max(a, b)] keeps its first argument unless the second is strictly
    greater. *)
Definition py_max (a b : Q) : Q := if Qltb a b then b else a.

(** [round(x)] of a float, without [ndigits]: the nearest integer, a tie
    going to the even neighbour. *)
Definition py_round (x : Q) : Z :=
  let f := Qfloor x in
  match Qcompare (x - inject_Z f) (1 # 2) with
  | Lt => f
  | Gt => (f + 1)%Z
  | Eq => if Z.even f then f else (f + 1)%Z
  end.

(** ** The sub-index calculator *)

(** A breakpoint row [[Clow, Chigh, Ilow, Ihigh]], under the names the loop of
    [_calc_sub_index] gives to its components. *)
Record breakpoint : Type := Breakpoint { Cl : Q; Ch : Q; Il : Q; Ih : Q }.

(** The linear interpolation [I] of a row, in exact arithmetic
    ([Binary64.interpolated] rounds every operation, and [Binary64.py_round]
    has the exceptions of [round]); the division raises on a row whose two
    concentrations coincide. *)
Definition interpolated (r : breakpoint) (Cp : Q) : Q :=
  ((Ih r - Il r) / (Ch r - Cl r)) * (Cp - Cl r) + Il r.

Definition interpolate (r : breakpoint) (Cp : Q) : result Q :=
  if Qeq_bool (Ch r - Cl r) 0 then Raise ZeroDivisionError
  else Ok (interpolated r Cp).

(** The [for] loop of [_calc_sub_index]: it returns from the first row with
    [Cp <= Ch], and 500 when the rows are exhausted. *)
Fixpoint scan_breakpoints (Cp : Q) (breakpoints : list breakpoint) : result Z :=
  match breakpoints with
  | [] => Ok 500%Z
  | r :: rest =>
      if Qle_bool Cp (Ch r)
      then (I <-? interpolate r Cp; Ok (py_round I))%result
      else scan_breakpoints Cp rest
  end.

Definition _calc_sub_index (Cp : Q) (breakpoints : list breakpoint) : result Z :=
  let Cp := py_max 0 Cp in
  scan_breakpoints Cp breakpoints.

Definition bps_pm25 : list breakpoint :=
  [ Breakpoint 0 30 0 50;
    Breakpoint 31 60 51 100;
    Breakpoint 61 90 101 200;
    Breakpoint 91 120 201 300;
    Breakpoint 121 250 301 400;
    Breakpoint 251 350 401 500 ].

Definition sub_index_pm25 (pm25 : Q) : result Z := _calc_sub_index pm25 bps_pm25.

Definition bps_pm10 : list breakpoint :=
  [ Breakpoint 0 50 0 50;
    Breakpoint 51 100 51 100;
    Breakpoint 101 250 101 200;
    Breakpoint 251 350 201 300;
    Breakpoint 351 430 301 400;
    Breakpoint 431 600 401 500 ].

Definition sub_index_pm10 (pm10 : Q) : result Z := _calc_sub_index pm10 bps_pm10.

(** ** The category classifier *)

Definition aqi_category (aqi : Z) : string :=
  if (aqi <=? 50)%Z then "Good"
  else if (aqi <=? 100)%Z then "Satisfactory"
  else if (aqi <=? 200)%Z then "Moderate"
  else if (aqi <=? 300)%Z then "Poor"
  else if (aqi <=? 400)%Z then "Very Poor"
  else "Severe".

(** ** Documents of the store *)

(** An instant, counted from [datetime.min]: no instant precedes it.  Time
    zones are not modelled. *)
Definition datetime : Type := N.
Definition datetime_min : datetime := 0%N.

(** The values a stored reading holds. *)
Inductive value : Type :=
  | VNone
  | VInt (z : Z)
  | VFloat (q : Q)
  | VStr (s : string)
  | VDatetime (t : datetime)
  | VObjectId (oid : string).

Abbreviation document := (gmap string value).

(** Truth value of an object, as [or] tests it. *)
Definition truthy (v : value) : bool :=
  match v with
  | VNone => false
  | VInt z => negb (z =? 0)%Z
  | VFloat q => negb (Qeq_bool q 0)
  | VStr s => negb (String.eqb s "")
  | VDatetime _ => true
  | VObjectId _ => true
  end.

Definition py_or (a b : value) : value := if truthy a then a else b.

(** [d.get(k)]: [None] for a missing key. *)
Definition dict_get (d : document) (k : string) : value := default VNone (d !! k).

(** [a < b] on objects: numbers with numbers, strings with strings, instants
    with instants, identifiers with identifiers; a [TypeError] otherwise. *)
Definition py_lt (a b : value) : result bool :=
  match a, b with
  | VInt x, VInt y => Ok (x <? y)%Z
  | VInt x, VFloat y => Ok (Qltb (inject_Z x) y)
  | VFloat x, VInt y => Ok (Qltb x (inject_Z y))
  | VFloat x, VFloat y => Ok (Qltb x y)
  | VStr s, VStr t => Ok (String.ltb s t)
  | VDatetime s, VDatetime t => Ok (s <? t)%N
  | VObjectId s, VObjectId t => Ok (String.ltb s t)
  | _, _ => Raise TypeError
  end.

(** [sorted(l, key=key, reverse=True)]: a stable sort into descending order of
    the keys (records with equal keys keep their order), here by insertion. *)
Fixpoint insert_desc {A : Type} (key : A -> value) (x : A) (l : list A)
  : result (list A) :=
  match l with
  | [] => Ok [x]
  | y :: rest =>
      (b <-? py_lt (key x) (key y);
       if b : bool
       then (rest' <-? insert_desc key x rest; Ok (y :: rest'))
       else Ok (x :: y :: rest))%result
  end.

Fixpoint py_sorted_reverse {A : Type} (key : A -> value) (l : list A)
  : result (list A) :=
  match l with
  | [] => Ok []
  | x :: rest => (s <-? py_sorted_reverse key rest; insert_desc key x s)%result
  end.

(** The sort key of [get_latest] and [get_history]. *)
Definition sort_key (d : document) : value :=
  py_or (py_or (dict_get d "timestamp") (dict_get d "created_at"))
        (VDatetime datetime_min).

(** ** The endpoints *)

Record IngestReading : Type := {
  pm25 : Q;
  pm10 : Q;
  co2 : option Q;
  temperature : option Q;
  humidity : option Q
}.

Definition optional (o : option Q) : value :=
  match o with
  | Some q => VFloat q
  | None => VNone
  end.

Definition model_dump (p : IngestReading) : document :=
  {[ "pm25" := VFloat (pm25 p);
     "pm10" := VFloat (pm10 p);
     "co2" := optional (co2 p);
     "temperature" := optional (temperature p);
     "humidity" := optional (humidity p) ]}.

Definition COLLECTION : string := "airqualityreading".

(** The dictionary [ingest_reading] stores: the payload's fields updated
    with the index, its category and the time of the computation. *)
Definition ingest_data (p : IngestReading) (aqi : Z) (category : string)
    (now : datetime) : document :=
  <["timestamp" := VDatetime now]>
    (<["category" := VStr category]>
       (<["aqi" := VInt aqi]> (model_dump p))).

Definition ingest_reply (aqi : Z) (category : string) : document :=
  {[ "status" := VStr "ok"; "aqi" := VInt aqi; "category" := VStr category ]}.

Section Endpoints.

(** The document store ([database.py]) is a collaborator: a state, and two
    operations on it that return, or raise an exception of which the
    endpoints use only the message [str(e)] (the left injection). *)
Variable store : Type.
Variable create_document : string -> document -> store -> (string + string) * store.
Variable get_documents :
  string -> document -> option Z -> store -> (string + list document) * store.
(** [v.isoformat()] of an instant. *)
Variable isoformat : datetime -> string.

Definition M (A : Type) : Type := store -> result A * store.

Definition ret {A : Type} (a : A) : M A := fun st => (Ok a, st).

Definition bind {A B : Type} (m : M A) (k : A -> M B) : M B :=
  fun st =>
    match m st with
    | (Ok a, st') => k a st'
    | (Raise e, st') => (Raise e, st')
    end.

Definition lift {A : Type} (r : result A) : M A := fun st => (r, st).

(** [try: op except Exception as e: raise HTTPException(500, ...)]. *)
Definition try_store {A : Type} (op : store -> (string + A) * store) : M A :=
  fun st =>
    match op st with
    | (inr a, st') => (Ok a, st')
    | (inl msg, st') =>
        (Raise (HTTPException 500 ("Database error: " ++ String.substring 0 120 msg)), st')
    end.

Notation "x <- m ;; k" := (bind m (fun x => k))
  (at level 100, m at next level, right associativity).

Definition ingest_reading (payload : IngestReading) (now : datetime)
  : M document :=
  si_pm25 <- lift (sub_index_pm25 (pm25 payload)) ;;
  si_pm10 <- lift (sub_index_pm10 (pm10 payload)) ;;
  let aqi := Z.max si_pm25 si_pm10 in
  let category := aqi_category aqi in
  let data := ingest_data payload aqi category now in
  _ <- try_store (create_document COLLECTION data) ;;
  ret (ingest_reply aqi category).

Definition _serialize (doc : document) : document :=
  let out := delete "_id" doc in
  (fun v => match v with
            | VDatetime t => VStr (isoformat t)
            | _ => v
            end) <$> out.

(** [limit] is [None] when the request gives no count. *)
Definition get_history (limit : option Z) : M (list document) :=
  let limit := default 50%Z limit in
  let lim := Z.max 1 (Z.min limit 500) in
  docs <- try_store (get_documents COLLECTION ∅ None) ;;
  docs_sorted <- lift (py_sorted_reverse sort_key docs) ;;
  let docs_sorted := take (Z.to_nat lim) docs_sorted in
  let docs_sorted := reverse docs_sorted in
  ret (_serialize <$> docs_sorted).

End Endpoints.

Arguments ret {store A} a _.
Arguments ingest_reading {store} create_document payload now _.
Arguments get_history {store} get_documents isoformat limit _.

(** ** The specification's wording, for comparison with the code *)

(** The sub-index as the specification describes it: clamp to [max(0, Cp)],
    take the first row, in table order, with [Cp <= Chigh], and round the
    interpolated value; the ceiling 500 when no row is selected. *)
Definition spec_sub_index (Cp : Q) (table : list breakpoint) : Z :=
  let c := Qmax 0 Cp in
  match find (fun r => Qle_bool c (Ch r)) table with
  | Some r => py_round ((Ih r - Il r) / (Ch r - Cl r) * (c - Cl r) + Il r)
  | None => 500%Z
  end.

(** Rounding to the nearest integer with a tie going away from zero, the rule
    the specification names as the reference behaviour. *)
Definition round_half_away_from_zero (x : Q) : Z :=
  if Qle_bool 0 x then Qfloor (x + (1 # 2)) else Qceiling (x - (1 # 2)).

(** A concentration lies in the defined ranges of a table when some row has
    [Clow <= c <= Chigh]. *)
Definition in_ranges (table : list breakpoint) (c : Q) : Prop :=
  exists r, In r table /\ Cl r <= c /\ c <= Ch r.

(** A table in the shape of the data model: every row spans a proper interval
    of non-negative concentrations with a non-decreasing index, and a row lies
    entirely below each later one. *)
Definition row_ok (r : breakpoint) : Prop :=
  0 <= Cl r /\ Cl r < Ch r /\ Il r <= Ih r.

Definition row_below (r1 r2 : breakpoint) : Prop :=
  Ch r1 < Cl r2 /\ Ih r1 <= Il r2.

Definition table_ok (table : list breakpoint) : Prop :=
  Forall row_ok table /\ StronglySorted row_below table.

(** The six labels. *)
Definition categories : list string :=
  ["Good"; "Satisfactory"; "Moderate"; "Poor"; "Very Poor"; "Severe"].

(** A requested count clamped to [[1, 500]]. *)
Definition clamp_count (requested : Z) : Z :=
  if (requested <? 1)%Z then 1%Z
  else if (500 <? requested)%Z then 500%Z
  else requested.

(** [d1] is not more recent than [d2]: both sort keys are instants, in
    order. *)
Definition not_after (d1 d2 : document) : Prop :=
  exists s t, sort_key d1 = VDatetime s /\ sort_key d2 = VDatetime t /\ (s <= t)%N.

Definition dated (d : document) : Prop := exists t, sort_key d = VDatetime t.

(** ** An in-memory store

    The simplest store the endpoints can run against: the list of the
    documents created so far, oldest first; neither operation fails. *)

Definition memory_create_document (collection : string) (data : document)
    (st : list document) : (string + string) * list document :=
  (inr "id", st ++ [data]).

Definition memory_get_documents (collection : string) (filter : document)
    (limit : option Z) (st : list document)
  : (string + list document) * list document :=
  (inr st, st).

(** A store that cannot be reached: both operations raise. *)
Definition down_create_document (collection : string) (data : document)
    (st : list document) : (string + string) * list document :=
  (inl "connection refused", st).

Definition down_get_documents (collection : string) (filter : document)
    (limit : option Z) (st : list document)
  : (string + list document) * list document :=
  (inl "connection refused", st).

(** A payload without the optional fields. *)
Definition reading (c25 c10 : Q) : IngestReading :=
  {| pm25 := c25; pm10 := c10; co2 := None; temperature := None; humidity := None |}.

(** A stored reading reduced to its time stamp. *)
Definition reading_at (t : datetime) : document :=
  {[ "timestamp" := VDatetime t ]}.

(** Hours and minutes of an instant, enough to tell the examples apart. *)
Definition clock_isoformat (t : datetime) : string :=
  String (Ascii.ascii_of_N (48 + t / 10)) (String (Ascii.ascii_of_N (48 + t mod 10)) "").

(** ** The other endpoints *)

Definition read_root : gmap string string :=
  {[ "message" := "Air Quality Analyzer API is running" ]}.

Definition hello : gmap string string :=
  {[ "message" := "Hello from the backend API!" ]}.

(** The values of the report of [test_database]: [None], a string, or a list
    of collection names. *)
Inductive report_value : Type :=
  | RNone
  | RStr (s : string)
  | RList (l : list string).

(** The database handle [db], as far as [test_database] looks at it: its
    [name] attribute when it has one, and what [list_collection_names()]
    returns, or the message of the exception it raises.  Reading the
    attribute is taken not to raise, so the outer handler of [test_database]
    is never entered. *)
Record Database : Type := {
  db_name : option string;
  list_collection_names : string + list string
}.

(** Truth value of [os.getenv(k)]: an unset or empty variable is false. *)
Definition env_set (getenv : string -> option string) (k : string) : bool :=
  match getenv k with
  | Some v => negb (String.eqb v "")
  | None => false
  end.

Definition test_database (db : option Database) (getenv : string -> option string)
  : gmap string report_value :=
  let response : gmap string report_value :=
    {[ "backend" := RStr "✅ Running";
       "database" := RStr "❌ Not Available";
       "database_url" := RNone;
       "database_name" := RNone;
       "connection_status" := RStr "Not Connected";
       "collections" := RList [] ]} in
  let response :=
    match db with
    | Some d =>
        let response := <["database" := RStr "✅ Available"]> response in
        let response := <["database_url" := RStr "✅ Configured"]> response in
        let response :=
          <["database_name" := RStr (default "✅ Connected" (db_name d))]> response in
        let response := <["connection_status" := RStr "Connected"]> response in
        match list_collection_names d with
        | inr collections =>
            let response := <["collections" := RList (take 10 collections)]> response in
            <["database" := RStr "✅ Connected & Working"]> response
        | inl msg =>
            <["database" :=
                RStr ("⚠️  Connected but Error: " ++ String.substring 0 50 msg)]> response
        end
    | None => <["database" := RStr "⚠️  Available but not initialized"]> response
    end in
  let response :=
    <["database_url" :=
        RStr (if env_set getenv "DATABASE_URL" then "✅ Set" else "❌ Not Set")]> response in
  let response :=
    <["database_name" :=
        RStr (if env_set getenv "DATABASE_NAME" then "✅ Set" else "❌ Not Set")]> response in
  response.

(** The reading [get_latest] answers with while nothing is stored. *)
Definition latest_default (isoformat : datetime -> string) (now : datetime)
  : document :=
  {[ "pm25" := VInt 0;
     "pm10" := VInt 0;
     "co2" := VNone;
     "temperature" := VNone;
     "humidity" := VNone;
     "aqi" := VInt 0;
     "category" := VStr "Good";
     "timestamp" := VStr (isoformat now) ]}.

Section Latest.

Variable store : Type.
Variable get_documents :
  string -> document -> option Z -> store -> (string + list document) * store.
Variable isoformat : datetime -> string.

Notation "x <- m ;; k" := (bind store m (fun x => k))
  (at level 100, m at next level, right associativity).

(** [now] is the instant [datetime.now] gives when the default is built.  The
    sorted list is as long as [docs], so that its element [0] exists whenever
    [docs] is not empty: the head is taken with a default that is never
    used. *)
Definition get_latest (now : datetime) : M store document :=
  docs <- try_store store (get_documents COLLECTION ∅ None) ;;
  match docs with
  | [] => ret (latest_default isoformat now)
  | first :: _ =>
      docs_sorted <- lift store (py_sorted_reverse sort_key docs) ;;
      let latest := hd first docs_sorted in
      ret (_serialize isoformat latest)
  end.

Definition get_data_alias (now : datetime) : M store document := get_latest now.

End Latest.

Arguments get_latest {store} get_documents isoformat now _.
Arguments get_data_alias {store} get_documents isoformat now _.

(** [d1] is older than [d2]: both sort keys are instants, the first strictly
    before the second. *)
Definition older_than (d1 d2 : document) : Prop :=
  exists s t, sort_key d1 = VDatetime s /\ sort_key d2 = VDatetime t /\ (s < t)%N.

(** ** The sub-index calculator on binary64 numbers

    A Python [float] is an IEEE 754 binary64 number, here a [spec_float] with
    a mantissa of 53 bits; the four operations round to nearest, ties to
    even.  The functions below are [_calc_sub_index] and its two callers as
    the interpreter computes them, with the exceptions of the division and of
    [round]. *)

Module Binary64.

Definition prec : Z := 53%Z.
Definition emax : Z := 1024%Z.

Definition zero : spec_float := S754_zero false.

(** The float of a Python integer, or of an integer literal. *)
Definition of_int (z : Z) : spec_float := binary_normalize prec emax z 0%Z false.

Definition fadd : spec_float -> spec_float -> spec_float := SFadd prec emax.
Definition fsub : spec_float -> spec_float -> spec_float := SFsub prec emax.
Definition fmul : spec_float -> spec_float -> spec_float := SFmul prec emax.
Definition fdiv : spec_float -> spec_float -> spec_float := SFdiv prec emax.

(** The rational a float stands for; none for an infinity or NaN. *)
Definition to_Q (x : spec_float) : option Q :=
  match x with
  | S754_zero _ => Some 0
  | S754_finite s m e =>
      Some ((if s then - inject_Z (Zpos m) else inject_Z (Zpos m)) * Qpower 2 e)
  | S754_infinity _ => None
  | S754_nan => None
  end.

Inductive exn : Type :=
  | ZeroDivisionError
  | OverflowError
  | ValueError.

Inductive result (A : Type) : Type :=
  | Ok (a : A)
  | Raise (e : exn).

Arguments Ok {A} a.
Arguments Raise {A} e.

(** [max(a, b)]: the second argument when it is strictly greater, else the
    first; a NaN is never greater. *)
Definition py_max (a b : spec_float) : spec_float := if SFltb a b then b else a.

(** The integer nearest to [m * 2 ^ e], a tie going to the even one. *)
Definition round_half_even (m : positive) (e : Z) : Z :=
  match e with
  | Z0 => Zpos m
  | Zpos p => (Zpos m * 2 ^ Zpos p)%Z
  | Zneg p =>
      let d := (2 ^ Zpos p)%Z in
      let q := (Zpos m / d)%Z in
      let r := (Zpos m mod d)%Z in
      match (2 * r ?= d)%Z with
      | Lt => q
      | Gt => (q + 1)%Z
      | Eq => if Z.even q then q else (q + 1)%Z
      end
  end.

(** [round(x)] of a float, without [ndigits]: an infinity raises
    [OverflowError], NaN raises [ValueError]. *)
Definition py_round (x : spec_float) : result Z :=
  match x with
  | S754_zero _ => Ok 0%Z
  | S754_infinity _ => Raise OverflowError
  | S754_nan => Raise ValueError
  | S754_finite s m e =>
      Ok (if s then (- round_half_even m e)%Z else round_half_even m e)
  end.

Record breakpoint : Type :=
  Breakpoint { Cl : spec_float; Ch : spec_float; Il : spec_float; Ih : spec_float }.

(** Line 40, each operation rounded. *)
Definition interpolated (r : breakpoint) (Cp : spec_float) : spec_float :=
  fadd (fmul (fdiv (fsub (Ih r) (Il r)) (fsub (Ch r) (Cl r))) (fsub Cp (Cl r))) (Il r).

(** The division raises when the divisor is a zero of either sign. *)
Definition interpolate (r : breakpoint) (Cp : spec_float) : result spec_float :=
  if SFeqb (fsub (Ch r) (Cl r)) zero then Raise ZeroDivisionError
  else Ok (interpolated r Cp).

Fixpoint scan_breakpoints (Cp : spec_float) (breakpoints : list breakpoint)
  : result Z :=
  match breakpoints with
  | [] => Ok 500%Z
  | r :: rest =>
      if SFleb Cp (Ch r)
      then match interpolate r Cp with
           | Ok v => py_round v
           | Raise e => Raise e
           end
      else scan_breakpoints Cp rest
  end.

Definition _calc_sub_index (Cp : spec_float) (breakpoints : list breakpoint)
  : result Z :=
  let Cp := py_max zero Cp in
  scan_breakpoints Cp breakpoints.

(** A row of integer literals. *)
Definition row (cl ch il ih : Z) : breakpoint :=
  Breakpoint (of_int cl) (of_int ch) (of_int il) (of_int ih).

Definition bps_pm25 : list breakpoint :=
  [ row 0 30 0 50;
    row 31 60 51 100;
    row 61 90 101 200;
    row 91 120 201 300;
    row 121 250 301 400;
    row 251 350 401 500 ].

Definition sub_index_pm25 (pm25 : spec_float) : result Z :=
  _calc_sub_index pm25 bps_pm25.

Definition bps_pm10 : list breakpoint :=
  [ row 0 50 0 50;
    row 51 100 51 100;
    row 101 250 101 200;
    row 251 350 201 300;
    row 351 430 301 400;
    row 431 600 401 500 ].

Definition sub_index_pm10 (pm10 : spec_float) : result Z :=
  _calc_sub_index pm10 bps_pm10.

(** The sub-index as the specification describes it, on binary64 numbers: a
    negative reading is treated as zero, the first row in table order with
    [Cp <= Chigh] is selected, and the interpolated value of that row is
    rounded; the ceiling 500 when no row is selected. *)
Definition spec_sub_index (Cp : spec_float) (table : list breakpoint) : result Z :=
  let c := if SFltb Cp zero then zero else Cp in
  match find (fun r => SFleb c (Ch r)) table with
  | Some r =>
      match interpolate r c with
      | Ok v => py_round v
      | Raise e => Raise e
      end
  | None => Ok 500%Z
  end.

(** The double nearest to 3.3, and the double nearest to 30.01. *)
Definition double_3_3 : spec_float := S754_finite false 7430939385161318 (-51).
Definition double_30_01 : spec_float := fdiv (of_int 3001) (of_int 100).

End Binary64.

(** ** Recency, as the data model has it *)

(** The instant a stored reading was created: its ["timestamp"] entry, when
    that is an instant. *)
Definition reading_time (d : document) : option datetime :=
  match d !! "timestamp" with
  | Some (VDatetime t) => Some t
  | _ => None
  end.

(** [d1] was not created after [d2]. *)
Definition no_later (d1 d2 : document) : Prop :=
  exists s t, reading_time d1 = Some s /\ reading_time d2 = Some t /\ (s <= t)%N.

(** The concentrations strictly between two of the first four PM2.5 rows. *)
Definition between_low_rows_pm25 (c : Q) : Prop :=
  (30 < c /\ c < 31) \/ (60 < c /\ c < 61) \/ (90 < c /\ c < 91).

(** * Properties *)

(** ** Rounding *)

Lemma Qltb_lt (a b : Q) : Qltb a b = true <-> a < b.
Proof.
  unfold Qltb. rewrite negb_true_iff. split.
  - intros H. apply Qnot_le_lt. intros Hle.
    apply Qle_bool_iff in Hle. congruence.
  - intros H. destruct (Qle_bool b a) eqn:E; [|reflexivity].
    apply Qle_bool_iff in E. lra.
Qed.

Lemma Qle_bool_false (a b : Q) : Qle_bool a b = false <-> b < a.
Proof.
  rewrite <- Qltb_lt. unfold Qltb. destruct (Qle_bool a b); simpl; intuition congruence.
Qed.

#[export] Instance py_round_comp : Proper (Qeq ==> eq) py_round.
Proof.
  intros x y Hxy. unfold py_round.
  rewrite (Qfloor_comp _ _ Hxy).
  assert (Hc : Qcompare (x - inject_Z (Qfloor y)) (1 # 2)
               = Qcompare (y - inject_Z (Qfloor y)) (1 # 2)).
  { apply Qcompare_comp; [rewrite Hxy|]; reflexivity. }
  rewrite Hc. reflexivity.
Qed.

(** The rounded value is the floor or its successor. *)
Lemma py_round_floor (x : Q) :
  py_round x = Qfloor x \/ py_round x = (Qfloor x + 1)%Z.
Proof.
  unfold py_round.
  destruct (Qcompare _ _); [destruct (Z.even _)|..]; auto.
Qed.

Lemma py_round_inject_Z (z : Z) : py_round (inject_Z z) = z.
Proof.
  unfold py_round. rewrite Qfloor_Z.
  destruct (Qcompare_spec (inject_Z z - inject_Z z) (1 # 2)); [exfalso; lra | reflexivity | exfalso; lra].
Qed.

Lemma py_round_integral (x : Q) (z : Z) : x == inject_Z z -> py_round x = z.
Proof. intros ->. apply py_round_inject_Z. Qed.

(** [round] is monotone. *)
Lemma py_round_mono (x y : Q) : x <= y -> (py_round x <= py_round y)%Z.
Proof.
  intros Hxy.
  pose proof (Qfloor_resp_le _ _ Hxy) as Hf.
  destruct (Z.eq_dec (Qfloor x) (Qfloor y)) as [E|NE].
  - unfold py_round. rewrite E.
    destruct (Qcompare_spec (x - inject_Z (Qfloor y)) (1 # 2));
      destruct (Qcompare_spec (y - inject_Z (Qfloor y)) (1 # 2));
      try (destruct (Z.even (Qfloor y))); try lia; exfalso; lra.
  - destruct (py_round_floor x) as [-> | ->], (py_round_floor y) as [-> | ->]; lia.
Qed.

Lemma py_round_between (x : Q) (a b : Z) :
  inject_Z a <= x -> x <= inject_Z b -> (a <= py_round x <= b)%Z.
Proof.
  intros Ha Hb. split.
  - rewrite <- (py_round_inject_Z a). now apply py_round_mono.
  - rewrite <- (py_round_inject_Z b). now apply py_round_mono.
Qed.

Lemma Qfloor_unique (x : Q) (k : Z) :
  inject_Z k <= x -> x < inject_Z k + 1 -> Qfloor x = k.
Proof.
  intros Hlo Hhi.
  pose proof (Qfloor_le x) as H1.
  pose proof (Qlt_floor x) as H2.
  rewrite inject_Z_plus in H2. change (inject_Z 1) with 1 in H2.
  assert (H3 : inject_Z (Qfloor x) < inject_Z (k + 1)).
  { rewrite inject_Z_plus. change (inject_Z 1) with 1. lra. }
  assert (H4 : inject_Z k < inject_Z (Qfloor x + 1)).
  { rewrite inject_Z_plus. change (inject_Z 1) with 1. lra. }
  rewrite <- Zlt_Qlt in H3, H4. lia.
Qed.

(** A tie goes to the even neighbour. *)
Lemma py_round_tie (x : Q) (k : Z) :
  x == inject_Z k + (1 # 2) ->
  py_round x = if Z.even k then k else (k + 1)%Z.
Proof.
  intros ->. unfold py_round.
  assert (Hk : Qfloor (inject_Z k + (1 # 2)) = k) by (apply Qfloor_unique; lra).
  rewrite Hk.
  destruct (Qcompare_spec (inject_Z k + (1 # 2) - inject_Z k) (1 # 2));
    [reflexivity | exfalso; lra | exfalso; lra].
Qed.

(** ** The scan of a table *)

Lemma py_max_0_neg (c : Q) : c <= 0 -> py_max 0 c = 0.
Proof.
  intros H. unfold py_max. destruct (Qltb 0 c) eqn:E; [|reflexivity].
  apply Qltb_lt in E. lra.
Qed.

Lemma py_max_0_nonneg (c : Q) : 0 <= c -> py_max 0 c == c.
Proof.
  intros H. unfold py_max. destruct (Qltb 0 c) eqn:E; [reflexivity|].
  assert (~ 0 < c) by (rewrite <- Qltb_lt; congruence). lra.
Qed.

Lemma py_max_0_ge (c : Q) : 0 <= py_max 0 c.
Proof.
  unfold py_max. destruct (Qltb 0 c) eqn:E; [|lra].
  apply Qltb_lt in E. lra.
Qed.

Lemma py_max_Qmax (c : Q) : py_max 0 c == Qmax 0 c.
Proof.
  destruct (Qlt_le_dec 0 c) as [H|H].
  - rewrite py_max_0_nonneg by lra. symmetry. apply Q.max_r. lra.
  - rewrite py_max_0_neg by lra. symmetry. apply Q.max_l. lra.
Qed.

#[export] Instance interpolated_comp (r : breakpoint) :
  Proper (Qeq ==> Qeq) (interpolated r).
Proof. intros c c' H. unfold interpolated. rewrite H. reflexivity. Qed.

Lemma interpolate_nonzero (r : breakpoint) (c : Q) :
  ~ Ch r - Cl r == 0 -> interpolate r c = Ok (interpolated r c).
Proof.
  intros H. unfold interpolate.
  destruct (Qeq_bool (Ch r - Cl r) 0) eqn:E; [|reflexivity].
  apply Qeq_bool_iff in E. contradiction.
Qed.

(** The loop is a search for the first row with [Cp <= Ch]. *)
Lemma scan_breakpoints_find (c : Q) (table : list breakpoint) :
  scan_breakpoints c table =
  match find (fun r => Qle_bool c (Ch r)) table with
  | Some r => (I <-? interpolate r c; Ok (py_round I))%result
  | None => Ok 500%Z
  end.
Proof.
  induction table as [|r rest IH]; simpl; [reflexivity|].
  destruct (Qle_bool c (Ch r)); [reflexivity | exact IH].
Qed.

Lemma find_row_comp (c c' : Q) (table : list breakpoint) :
  c == c' ->
  find (fun r => Qle_bool c (Ch r)) table = find (fun r => Qle_bool c' (Ch r)) table.
Proof.
  intros H. induction table as [|r rest IH]; simpl; [reflexivity|].
  rewrite IH, (Qleb_comp c c' H (Ch r) (Ch r) (Qeq_refl _)). reflexivity.
Qed.

Lemma scan_breakpoints_comp (c c' : Q) (table : list breakpoint) :
  c == c' -> scan_breakpoints c table = scan_breakpoints c' table.
Proof.
  intros H. rewrite !scan_breakpoints_find, (find_row_comp c c' table H).
  destruct (find _ table) as [r|]; [|reflexivity].
  unfold interpolate. destruct (Qeq_bool (Ch r - Cl r) 0); [reflexivity|].
  simpl. f_equal. apply py_round_comp. now rewrite H.
Qed.

Lemma calc_sub_index_negative (c : Q) (table : list breakpoint) :
  c < 0 -> _calc_sub_index c table = _calc_sub_index 0 table.
Proof.
  intros H. unfold _calc_sub_index.
  rewrite (py_max_0_neg c) by lra. rewrite (py_max_0_neg 0) by lra. reflexivity.
Qed.

(** On a table without a degenerate row the code computes what the
    specification describes. *)
Lemma calc_sub_index_spec (Cp : Q) (table : list breakpoint) :
  Forall (fun r => ~ Ch r - Cl r == 0) table ->
  _calc_sub_index Cp table = Ok (spec_sub_index Cp table).
Proof.
  intros Hnz. unfold _calc_sub_index, spec_sub_index.
  rewrite scan_breakpoints_find, (find_row_comp _ _ table (py_max_Qmax Cp)).
  destruct (find _ table) as [r|] eqn:F; [|reflexivity].
  apply find_some in F as [Hin _].
  rewrite List.Forall_forall in Hnz.
  rewrite interpolate_nonzero by (apply Hnz; exact Hin).
  simpl. f_equal. apply py_round_comp.
  change (interpolated r (py_max 0 Cp) == interpolated r (Qmax 0 Cp)).
  now rewrite py_max_Qmax.
Qed.

Lemma bps_pm25_nonzero : Forall (fun r => ~ Ch r - Cl r == 0) bps_pm25.
Proof. repeat constructor; simpl; lra. Qed.

Lemma bps_pm10_nonzero : Forall (fun r => ~ Ch r - Cl r == 0) bps_pm10.
Proof. repeat constructor; simpl; lra. Qed.

(** ** Interpolation within a row *)

Section Row.

Variable r : breakpoint.
Hypothesis Hrow : row_ok r.

Lemma row_nonzero : ~ Ch r - Cl r == 0.
Proof. destruct Hrow as (_ & H & _). lra. Qed.

Lemma slope_nonneg : 0 <= (Ih r - Il r) / (Ch r - Cl r).
Proof.
  destruct Hrow as (_ & H1 & H2).
  apply Qle_shift_div_l; lra.
Qed.

Lemma interpolated_mono (c1 c2 : Q) :
  c1 <= c2 -> interpolated r c1 <= interpolated r c2.
Proof.
  intros H. unfold interpolated.
  pose proof slope_nonneg as Hs.
  set (s := (Ih r - Il r) / (Ch r - Cl r)) in *.
  assert (s * (c1 - Cl r) <= s * (c2 - Cl r)).
  { rewrite !(Qmult_comm s). apply Qmult_le_compat_r; lra. }
  lra.
Qed.

Lemma interpolated_Cl : interpolated r (Cl r) == Il r.
Proof. unfold interpolated. ring. Qed.

Lemma interpolated_Ch : interpolated r (Ch r) == Ih r.
Proof. unfold interpolated. field. exact row_nonzero. Qed.

Lemma interpolated_within (c : Q) :
  Cl r <= c -> c <= Ch r -> Il r <= interpolated r c <= Ih r.
Proof.
  intros H1 H2. split.
  - rewrite <- interpolated_Cl. now apply interpolated_mono.
  - rewrite <- interpolated_Ch. now apply interpolated_mono.
Qed.

End Row.

(** ** Well-formed tables *)

Lemma sorted_pair {A : Type} (R : A -> A -> Prop) (l : list A) (a b : A) :
  StronglySorted R l -> In a l -> In b l -> a = b \/ R a b \/ R b a.
Proof.
  induction 1 as [|x l Hs IH Hall]; intros Ha Hb; [contradiction|].
  rewrite List.Forall_forall in Hall.
  destruct Ha as [<-|Ha], Hb as [<-|Hb]; auto.
Qed.

(** Inside the range of a row of a well-formed table, the loop stops at that
    row. *)
Lemma scan_in_range (table : list breakpoint) (r : breakpoint) (c : Q) :
  table_ok table -> In r table -> Cl r <= c -> c <= Ch r ->
  scan_breakpoints c table = Ok (py_round (interpolated r c)).
Proof.
  intros [Hrows Hsorted]. revert Hrows.
  induction Hsorted as [|r0 rest Hs IH Hall]; intros Hrows Hin Hlo Hhi;
    [contradiction|].
  apply Forall_cons_1 in Hrows as [Hr0 Hrows].
  simpl. destruct Hin as [->|Hin].
  - apply Qle_bool_iff in Hhi. rewrite Hhi.
    rewrite interpolate_nonzero by (apply row_nonzero; exact Hr0). reflexivity.
  - rewrite List.Forall_forall in Hall. destruct (Hall r Hin) as [Hbelow _].
    assert (E : Qle_bool c (Ch r0) = false) by (apply Qle_bool_false; lra).
    rewrite E. now apply IH.
Qed.

Lemma calc_sub_index_in_range (table : list breakpoint) (r : breakpoint) (c : Q) :
  table_ok table -> In r table -> Cl r <= c -> c <= Ch r ->
  _calc_sub_index c table = Ok (py_round (interpolated r c)).
Proof.
  intros Hok Hin Hlo Hhi. unfold _calc_sub_index.
  assert (H0 : 0 <= c).
  { destruct Hok as [Hrows _]. rewrite List.Forall_forall in Hrows.
    destruct (Hrows r Hin) as (H & _). lra. }
  rewrite (scan_breakpoints_comp _ c table (py_max_0_nonneg c H0)).
  now apply scan_in_range.
Qed.

(** On a well-formed table the sub-index is monotone over the rows' ranges. *)
Lemma calc_sub_index_monotone (table : list breakpoint) (c1 c2 : Q) :
  table_ok table -> in_ranges table c1 -> in_ranges table c2 -> c1 <= c2 ->
  exists i1 i2 : Z,
    _calc_sub_index c1 table = Ok i1 /\ _calc_sub_index c2 table = Ok i2 /\
    (i1 <= i2)%Z.
Proof.
  intros Hok (r1 & Hin1 & Hlo1 & Hhi1) (r2 & Hin2 & Hlo2 & Hhi2) Hle.
  exists (py_round (interpolated r1 c1)), (py_round (interpolated r2 c2)).
  split; [now apply calc_sub_index_in_range|].
  split; [now apply calc_sub_index_in_range|].
  apply py_round_mono.
  destruct Hok as [Hrows Hsorted]. rewrite List.Forall_forall in Hrows.
  pose proof (Hrows r1 Hin1) as Hr1. pose proof (Hrows r2 Hin2) as Hr2.
  destruct (sorted_pair _ _ r1 r2 Hsorted Hin1 Hin2) as [->|[[Hc Hi]|[Hc Hi]]].
  - now apply interpolated_mono.
  - pose proof (interpolated_within r1 Hr1 c1 Hlo1 Hhi1) as [_ H1].
    pose proof (interpolated_within r2 Hr2 c2 Hlo2 Hhi2) as [H2 _]. lra.
  - exfalso. lra.
Qed.

Lemma bps_pm25_ok : table_ok bps_pm25.
Proof.
  split.
  - repeat constructor; simpl; lra.
  - repeat (constructor; [|repeat constructor; simpl; lra]). constructor.
Qed.

Lemma bps_pm10_ok : table_ok bps_pm10.
Proof.
  split.
  - repeat constructor; simpl; lra.
  - repeat (constructor; [|repeat constructor; simpl; lra]). constructor.
Qed.

(** Over the rows' own ranges, both sub-indices are monotone: for
    concentrations [c1 <= c2] that each lie in the range [Clow .. Chigh] of
    some row, the sub-index of [c1] is at most that of [c2]. *)
Lemma sub_index_monotone_in_rows (c1 c2 : Q) :
  c1 <= c2 ->
  (in_ranges bps_pm25 c1 -> in_ranges bps_pm25 c2 ->
   exists i1 i2 : Z,
     sub_index_pm25 c1 = Ok i1 /\ sub_index_pm25 c2 = Ok i2 /\ (i1 <= i2)%Z) /\
  (in_ranges bps_pm10 c1 -> in_ranges bps_pm10 c2 ->
   exists i1 i2 : Z,
     sub_index_pm10 c1 = Ok i1 /\ sub_index_pm10 c2 = Ok i2 /\ (i1 <= i2)%Z).
Proof.
  intros Hle. split; intros H1 H2.
  - now apply (calc_sub_index_monotone bps_pm25 c1 c2 bps_pm25_ok).
  - now apply (calc_sub_index_monotone bps_pm10 c1 c2 bps_pm10_ok).
Qed.

(** Between two rows the table defines no range: there the loop extends the
    line of the upper row downwards, and the rounded value can fall below the
    index of the lower row's end. *)
Lemma sub_index_pm25_between_rows :
  ~ in_ranges bps_pm25 (3001 # 100) /\
  sub_index_pm25 30 = Ok 50%Z /\ sub_index_pm25 (3001 # 100) = Ok 49%Z.
Proof.
  split; [|split; reflexivity].
  intros (r & Hin & Hlo & Hhi). simpl in Hin.
  repeat (destruct Hin as [<-|Hin]; [simpl in Hlo, Hhi; lra|]). contradiction.
Qed.

(** ** Saturation and totality *)

Lemma scan_breakpoints_beyond (c : Q) (table : list breakpoint) :
  Forall (fun r => Ch r < c) table -> scan_breakpoints c table = Ok 500%Z.
Proof.
  induction 1 as [|r rest Hr _ IH]; simpl; [reflexivity|].
  assert (E : Qle_bool c (Ch r) = false) by (now apply Qle_bool_false).
  now rewrite E.
Qed.

Lemma calc_sub_index_beyond (c : Q) (table : list breakpoint) :
  0 <= c -> Forall (fun r => Ch r < c) table -> _calc_sub_index c table = Ok 500%Z.
Proof.
  intros H0 H. unfold _calc_sub_index.
  rewrite (scan_breakpoints_comp _ c table (py_max_0_nonneg c H0)).
  now apply scan_breakpoints_beyond.
Qed.

(** C5: the sub-index is total on non-negative concentrations: it returns an
    integer and never raises; beyond the [Chigh] of the last row (350 for
    PM2.5, 600 for PM10) it returns exactly 500. *)
Theorem sub_index_total_saturating (Cp : Q) :
  0 <= Cp ->
  (exists i : Z, sub_index_pm25 Cp = Ok i) /\
  (exists i : Z, sub_index_pm10 Cp = Ok i) /\
  Ch <$> last bps_pm25 = Some 350 /\
  Ch <$> last bps_pm10 = Some 600 /\
  (350 < Cp -> sub_index_pm25 Cp = Ok 500%Z) /\
  (600 < Cp -> sub_index_pm10 Cp = Ok 500%Z).
Proof.
  intros H0. repeat split.
  - eexists. apply calc_sub_index_spec, bps_pm25_nonzero.
  - eexists. apply calc_sub_index_spec, bps_pm10_nonzero.
  - intros H. apply calc_sub_index_beyond; [exact H0|].
    repeat constructor; simpl; lra.
  - intros H. apply calc_sub_index_beyond; [exact H0|].
    repeat constructor; simpl; lra.
Qed.

Lemma sub_index_total_saturating_witness :
  sub_index_pm25 400 = Ok 500%Z /\ sub_index_pm10 (1201 # 2) = Ok 500%Z.
Proof.
  split.
  - destruct (sub_index_total_saturating 400) as (_ & _ & _ & _ & H & _);
      [lra | apply H; lra].
  - destruct (sub_index_total_saturating (1201 # 2)) as (_ & _ & _ & _ & _ & H);
      [lra | apply H; lra].
Defined.

(** ** Breakpoints *)

Lemma calc_sub_index_Ch (table : list breakpoint) (r : breakpoint) (i : Z) :
  table_ok table -> In r table -> Ih r == inject_Z i ->
  _calc_sub_index (Ch r) table = Ok i.
Proof.
  intros Hok Hin Hi.
  assert (Hr : row_ok r).
  { destruct Hok as [Hrows _]. rewrite List.Forall_forall in Hrows. auto. }
  rewrite (calc_sub_index_in_range table r (Ch r) Hok Hin);
    [|destruct Hr as (_ & ? & _); lra | lra].
  f_equal. apply py_round_integral.
  rewrite (interpolated_Ch r Hr). exact Hi.
Qed.

Lemma calc_sub_index_Cl (table : list breakpoint) (r : breakpoint) (i : Z) :
  table_ok table -> In r table -> Il r == inject_Z i ->
  _calc_sub_index (Cl r) table = Ok i.
Proof.
  intros Hok Hin Hi.
  assert (Hr : row_ok r).
  { destruct Hok as [Hrows _]. rewrite List.Forall_forall in Hrows. auto. }
  rewrite (calc_sub_index_in_range table r (Cl r) Hok Hin);
    [|lra | destruct Hr as (_ & ? & _); lra].
  f_equal. apply py_round_integral.
  rewrite (interpolated_Cl r). exact Hi.
Qed.

(** C6: at every breakpoint of each table the sub-index is the table's index
    value exactly: the sub-index of a row's [Chigh] is its [Ihigh], the
    sub-index of a row's [Clow] is its [Ilow]; the sub-index of 0 is 0 for
    PM2.5 and for PM10. *)
Theorem sub_index_at_breakpoints :
  Forall (fun r => exists i : Z,
            sub_index_pm25 (Ch r) = Ok i /\ inject_Z i == Ih r) bps_pm25 /\
  Forall (fun r => exists i : Z,
            sub_index_pm25 (Cl r) = Ok i /\ inject_Z i == Il r) bps_pm25 /\
  Forall (fun r => exists i : Z,
            sub_index_pm10 (Ch r) = Ok i /\ inject_Z i == Ih r) bps_pm10 /\
  Forall (fun r => exists i : Z,
            sub_index_pm10 (Cl r) = Ok i /\ inject_Z i == Il r) bps_pm10 /\
  sub_index_pm25 0 = Ok 0%Z /\ sub_index_pm10 0 = Ok 0%Z.
Proof.
  split; [|split; [|split; [|split; [|split]]]].
  - apply List.Forall_forall. intros r Hin. exists (Qfloor (Ih r)).
    assert (E : Ih r == inject_Z (Qfloor (Ih r))).
    { simpl in Hin. repeat (destruct Hin as [<-|Hin]; [reflexivity|]). contradiction. }
    split; [apply calc_sub_index_Ch; auto using bps_pm25_ok | now symmetry].
  - apply List.Forall_forall. intros r Hin. exists (Qfloor (Il r)).
    assert (E : Il r == inject_Z (Qfloor (Il r))).
    { simpl in Hin. repeat (destruct Hin as [<-|Hin]; [reflexivity|]). contradiction. }
    split; [apply calc_sub_index_Cl; auto using bps_pm25_ok | now symmetry].
  - apply List.Forall_forall. intros r Hin. exists (Qfloor (Ih r)).
    assert (E : Ih r == inject_Z (Qfloor (Ih r))).
    { simpl in Hin. repeat (destruct Hin as [<-|Hin]; [reflexivity|]). contradiction. }
    split; [apply calc_sub_index_Ch; auto using bps_pm10_ok | now symmetry].
  - apply List.Forall_forall. intros r Hin. exists (Qfloor (Il r)).
    assert (E : Il r == inject_Z (Qfloor (Il r))).
    { simpl in Hin. repeat (destruct Hin as [<-|Hin]; [reflexivity|]). contradiction. }
    split; [apply calc_sub_index_Cl; auto using bps_pm10_ok | now symmetry].
  - apply (calc_sub_index_Cl bps_pm25 (Breakpoint 0 30 0 50) 0 bps_pm25_ok);
      [simpl; tauto | reflexivity].
  - apply (calc_sub_index_Cl bps_pm10 (Breakpoint 0 50 0 50) 0 bps_pm10_ok);
      [simpl; tauto | reflexivity].
Qed.

(** ** Ties *)

(** C4, as the code has it: the interpolated value of the selected row is
    rounded with ties going to the even neighbour: when it is [k + 1/2] for an
    integer [k], the sub-index is the even one of [k] and [k + 1]. *)
Theorem sub_index_ties_to_even
    (table : list breakpoint) (Cp : Q) (r : breakpoint) (I : Q) (k : Z) :
  find (fun r => Qle_bool (py_max 0 Cp) (Ch r)) table = Some r ->
  interpolate r (py_max 0 Cp) = Ok I ->
  I == inject_Z k + (1 # 2) ->
  _calc_sub_index Cp table = Ok (if Z.even k then k else (k + 1)%Z).
Proof.
  intros Hfind HI Htie. unfold _calc_sub_index.
  rewrite scan_breakpoints_find, Hfind, HI. simpl.
  f_equal. now apply py_round_tie.
Qed.

Lemma sub_index_ties_to_even_witness :
  sub_index_pm10 (5 # 2) = Ok 2%Z /\ sub_index_pm10 (7 # 2) = Ok 4%Z.
Proof.
  split.
  - apply (sub_index_ties_to_even bps_pm10 (5 # 2) (Breakpoint 0 50 0 50)
             (interpolated (Breakpoint 0 50 0 50) (5 # 2)) 2);
      reflexivity.
  - apply (sub_index_ties_to_even bps_pm10 (7 # 2) (Breakpoint 0 50 0 50)
             (interpolated (Breakpoint 0 50 0 50) (7 # 2)) 3);
      reflexivity.
Defined.

(** The PM10 concentration 2.5 is interpolated, in the first row, to 2.5
    itself, a tie; the sub-index is 2, where rounding half away from zero
    gives 3. *)
Lemma sub_index_ties_not_away_from_zero :
  find (fun r => Qle_bool (py_max 0 (5 # 2)) (Ch r)) bps_pm10
    = Some (Breakpoint 0 50 0 50) /\
  interpolate (Breakpoint 0 50 0 50) (py_max 0 (5 # 2))
    = Ok (interpolated (Breakpoint 0 50 0 50) (5 # 2)) /\
  interpolated (Breakpoint 0 50 0 50) (5 # 2) == inject_Z 2 + (1 # 2) /\
  round_half_away_from_zero (interpolated (Breakpoint 0 50 0 50) (5 # 2)) = 3%Z /\
  sub_index_pm10 (5 # 2) = Ok 2%Z /\
  sub_index_pm10 (5 # 2)
    <> Ok (round_half_away_from_zero (interpolated (Breakpoint 0 50 0 50) (5 # 2))).
Proof.
  repeat split; try reflexivity. vm_compute. discriminate.
Qed.

(** ** The category classifier *)

Lemma aqi_category_label (aqi : Z) : In (aqi_category aqi) categories.
Proof.
  unfold aqi_category, categories.
  repeat match goal with
         | |- context [(?a <=? ?b)%Z] => destruct (a <=? b)%Z
         end; simpl; tauto.
Qed.

(** C8: the classifier returns, for every integer from 0 on, the one label of
    the band the integer lies in, upper bounds included: 0-50 Good, 51-100
    Satisfactory, 101-200 Moderate, 201-300 Poor, 301-400 Very Poor, above 400
    Severe. *)
Theorem aqi_category_bands (aqi : Z) :
  (0 <= aqi)%Z ->
  ((0 <= aqi <= 50)%Z -> aqi_category aqi = "Good") /\
  ((51 <= aqi <= 100)%Z -> aqi_category aqi = "Satisfactory") /\
  ((101 <= aqi <= 200)%Z -> aqi_category aqi = "Moderate") /\
  ((201 <= aqi <= 300)%Z -> aqi_category aqi = "Poor") /\
  ((301 <= aqi <= 400)%Z -> aqi_category aqi = "Very Poor") /\
  ((400 < aqi)%Z -> aqi_category aqi = "Severe") /\
  In (aqi_category aqi) categories.
Proof.
  intros H0.
  assert (Hlabel := aqi_category_label aqi).
  unfold aqi_category in *.
  repeat match goal with
         | |- context [(?a <=? ?b)%Z] => destruct (Z.leb_spec a b)
         end;
    (split; [|split; [|split; [|split; [|split; [|split]]]]]);
    try exact Hlabel; intros; try lia; reflexivity.
Qed.

Lemma aqi_category_bands_witness :
  aqi_category 50 = "Good" /\ aqi_category 51 = "Satisfactory" /\
  aqi_category 400 = "Very Poor" /\ aqi_category 401 = "Severe".
Proof.
  split; [|split; [|split]].
  - apply (aqi_category_bands 50); lia.
  - apply (aqi_category_bands 51); lia.
  - apply (aqi_category_bands 400); lia.
  - apply (aqi_category_bands 401); lia.
Defined.

(** C10: the classifier is total on all integers, negative ones included: it
    always returns one of the six labels, and every negative integer is
    classified Good. *)
Theorem aqi_category_negative (aqi : Z) :
  In (aqi_category aqi) categories /\
  ((aqi < 0)%Z -> aqi_category aqi = "Good").
Proof.
  split; [apply aqi_category_label|].
  intros H. unfold aqi_category.
  destruct (Z.leb_spec aqi 50); [reflexivity | lia].
Qed.

Lemma aqi_category_negative_witness : aqi_category (-1) = "Good".
Proof. apply (aqi_category_negative (-1)). lia. Defined.

(** ** The range of the sub-indices *)

(** One step of the loop on a row that is not degenerate. *)
Lemma scan_breakpoints_cons (c : Q) (r : breakpoint) (rest : list breakpoint) :
  ~ Ch r - Cl r == 0 ->
  (c <= Ch r /\ scan_breakpoints c (r :: rest) = Ok (py_round (interpolated r c))) \/
  (Ch r < c /\ scan_breakpoints c (r :: rest) = scan_breakpoints c rest).
Proof.
  intros Hnz. simpl. destruct (Qle_bool c (Ch r)) eqn:E.
  - left. apply Qle_bool_iff in E. split; [exact E|].
    now rewrite interpolate_nonzero.
  - right. apply Qle_bool_false in E. now split.
Qed.

Ltac scan_rows c :=
  repeat match goal with
         | |- context [scan_breakpoints c (?r :: ?rest)] =>
             let Hle := fresh "Hle" in
             let E := fresh "E" in
             destruct (scan_breakpoints_cons c r rest) as [[Hle E]|[Hle E]];
             [simpl; lra | rewrite E; clear E | rewrite E; clear E]
         end.

Ltac slope_constants :=
  repeat match goal with
         | |- context [Qdiv ?a ?b] =>
             let v := eval vm_compute in (Qdiv a b) in change (Qdiv a b) with v
         end.

Ltac row_bounds :=
  eexists; split; [reflexivity|];
  apply py_round_between; unfold interpolated, inject_Z; simpl in *;
  slope_constants; lra.

Lemma sub_index_pm25_range (Cp : Q) :
  exists i : Z, sub_index_pm25 Cp = Ok i /\ (0 <= i <= 500)%Z.
Proof.
  unfold sub_index_pm25, _calc_sub_index, bps_pm25.
  pose proof (py_max_0_ge Cp) as H0. set (c := py_max 0 Cp) in *. clearbody c.
  scan_rows c; try row_bounds.
  exists 500%Z. simpl. split; [reflexivity | lia].
Qed.

Lemma sub_index_pm10_range (Cp : Q) :
  exists i : Z, sub_index_pm10 Cp = Ok i /\ (0 <= i <= 500)%Z.
Proof.
  unfold sub_index_pm10, _calc_sub_index, bps_pm10.
  pose proof (py_max_0_ge Cp) as H0. set (c := py_max 0 Cp) in *. clearbody c.
  scan_rows c; try row_bounds.
  exists 500%Z. simpl. split; [reflexivity | lia].
Qed.

(** ** The ingest endpoint *)

Section Ingest.

Variable store : Type.
Variable create_document : string -> document -> store -> (string + string) * store.

(** What the endpoint does once the index and the category are known: the
    reading is stored, and the reply carries the index and the category, or
    the store's failure becomes an HTTP error 500. *)
Lemma ingest_reading_computed (p : IngestReading) (now : datetime) (st : store)
    (si_pm25 si_pm10 : Z) :
  sub_index_pm25 (pm25 p) = Ok si_pm25 ->
  sub_index_pm10 (pm10 p) = Ok si_pm10 ->
  ingest_reading create_document p now st =
  let aqi := Z.max si_pm25 si_pm10 in
  match create_document COLLECTION (ingest_data p aqi (aqi_category aqi) now) st with
  | (inr _, st') => (Ok (ingest_reply aqi (aqi_category aqi)), st')
  | (inl msg, st') =>
      (Raise (HTTPException 500 ("Database error: " ++ String.substring 0 120 msg)), st')
  end.
Proof.
  intros H25 H10. unfold ingest_reading, bind, lift, try_store, ret.
  rewrite H25, H10. simpl.
  destruct (create_document _ _ st) as [[msg|id] st']; reflexivity.
Qed.

(** C2: for non-negative PM2.5 and PM10 concentrations, the index the
    endpoint stores and returns is the maximum of the two sub-indices, and
    the category is that of this maximum; whatever the optional [co2],
    [temperature] and [humidity] are, the index and the category are the
    same. *)
Theorem ingest_aqi_is_max (c25 c10 : Q) :
  0 <= c25 -> 0 <= c10 ->
  exists si_pm25 si_pm10 : Z,
    sub_index_pm25 c25 = Ok si_pm25 /\
    sub_index_pm10 c10 = Ok si_pm10 /\
    forall (c t h : option Q) (now : datetime) (st : store),
      let p := {| pm25 := c25; pm10 := c10; co2 := c;
                  temperature := t; humidity := h |} in
      let aqi := Z.max si_pm25 si_pm10 in
      let category := aqi_category aqi in
      ingest_data p aqi category now !! "aqi" = Some (VInt aqi) /\
      ingest_data p aqi category now !! "category" = Some (VStr category) /\
      ingest_reply aqi category !! "aqi" = Some (VInt aqi) /\
      ingest_reply aqi category !! "category" = Some (VStr category) /\
      ingest_reading create_document p now st =
      match create_document COLLECTION (ingest_data p aqi category now) st with
      | (inr _, st') => (Ok (ingest_reply aqi category), st')
      | (inl msg, st') =>
          (Raise (HTTPException 500 ("Database error: " ++ String.substring 0 120 msg)),
           st')
      end.
Proof.
  intros _ _.
  destruct (sub_index_pm25_range c25) as (s25 & H25 & _).
  destruct (sub_index_pm10_range c10) as (s10 & H10 & _).
  exists s25, s10. split; [exact H25|]. split; [exact H10|].
  intros c t h now st p aqi category.
  split; [reflexivity|]. split; [reflexivity|].
  split; [reflexivity|]. split; [reflexivity|].
  now apply ingest_reading_computed.
Qed.

(** C7: for non-negative PM2.5 and PM10 concentrations, the index the
    endpoint stores and returns is an integer between 0 and 500, and the
    category is one of the six labels. *)
Theorem ingest_aqi_in_range (p : IngestReading) (now : datetime) (st : store) :
  0 <= pm25 p -> 0 <= pm10 p ->
  exists (aqi : Z) (category : string),
    (0 <= aqi <= 500)%Z /\
    In category categories /\
    ingest_reply aqi category !! "aqi" = Some (VInt aqi) /\
    ingest_reply aqi category !! "category" = Some (VStr category) /\
    ingest_reading create_document p now st =
    match create_document COLLECTION (ingest_data p aqi category now) st with
    | (inr _, st') => (Ok (ingest_reply aqi category), st')
    | (inl msg, st') =>
        (Raise (HTTPException 500 ("Database error: " ++ String.substring 0 120 msg)),
         st')
    end.
Proof.
  intros _ _.
  destruct (sub_index_pm25_range (pm25 p)) as (s25 & H25 & R25).
  destruct (sub_index_pm10_range (pm10 p)) as (s10 & H10 & R10).
  exists (Z.max s25 s10), (aqi_category (Z.max s25 s10)).
  split; [lia|].
  split; [apply aqi_category_label|].
  split; [reflexivity|]. split; [reflexivity|].
  now apply ingest_reading_computed.
Qed.

End Ingest.

Lemma ingest_aqi_is_max_witness :
  ingest_reading memory_create_document
    {| pm25 := 10; pm10 := 20; co2 := Some 415; temperature := None;
       humidity := Some 40 |} 7%N []
  = (Ok (ingest_reply 20 "Good"),
     [ingest_data {| pm25 := 10; pm10 := 20; co2 := Some 415; temperature := None;
                     humidity := Some 40 |} 20 "Good" 7%N]).
Proof.
  destruct (ingest_aqi_is_max (list document) memory_create_document 10 20)
    as (s25 & s10 & H25 & H10 & H); [lra | lra |].
  destruct (H (Some 415) None (Some 40) 7%N []) as (_ & _ & _ & _ & ->).
  assert (E25 : s25 = 17%Z) by (vm_compute in H25; congruence).
  assert (E10 : s10 = 20%Z) by (vm_compute in H10; congruence).
  rewrite E25, E10. reflexivity.
Defined.

Lemma ingest_aqi_in_range_witness :
  exists (aqi : Z) (category : string),
    (0 <= aqi <= 500)%Z /\ In category categories /\
    fst (ingest_reading memory_create_document
           {| pm25 := 400; pm10 := 0; co2 := None; temperature := None;
              humidity := None |} 7%N [])
    = Ok (ingest_reply aqi category).
Proof.
  destruct (ingest_aqi_in_range (list document) memory_create_document
              {| pm25 := 400; pm10 := 0; co2 := None; temperature := None;
                 humidity := None |} 7%N [])
    as (aqi & category & Hr & Hc & _ & _ & E); [simpl; lra | simpl; lra |].
  exists aqi, category. split; [exact Hr|]. split; [exact Hc|].
  rewrite E. reflexivity.
Defined.

(** The scenarios of the specification, run against the in-memory store. *)

Example scenario_worst_pollutant :
  sub_index_pm25 10 = Ok 17%Z /\ sub_index_pm10 20 = Ok 20%Z /\
  fst (ingest_reading memory_create_document (reading 10 20) 0%N [])
  = Ok (ingest_reply 20 "Good").
Proof. repeat split. Qed.

Example scenario_row_end :
  sub_index_pm25 60 = Ok 100%Z /\ sub_index_pm10 30 = Ok 30%Z /\
  fst (ingest_reading memory_create_document (reading 60 30) 0%N [])
  = Ok (ingest_reply 100 "Satisfactory").
Proof. repeat split. Qed.

Example scenario_zero :
  fst (ingest_reading memory_create_document (reading 0 0) 0%N [])
  = Ok (ingest_reply 0 "Good").
Proof. reflexivity. Qed.

Example scenario_saturated :
  fst (ingest_reading memory_create_document (reading 400 0) 0%N [])
  = Ok (ingest_reply 500 "Severe").
Proof. reflexivity. Qed.

Example scenario_negative :
  fst (ingest_reading memory_create_document (reading (-5) (-5)) 0%N [])
  = Ok (ingest_reply 0 "Good").
Proof. reflexivity. Qed.

(** ** Sorting by recency *)

(** Every document the ingest endpoint stores carries the instant of its
    computation as its sort key. *)
Lemma ingest_data_dated (p : IngestReading) (aqi : Z) (category : string)
    (now : datetime) :
  sort_key (ingest_data p aqi category now) = VDatetime now.
Proof. reflexivity. Qed.


Lemma clamp_count_max_min (limit : Z) :
  Z.max 1 (Z.min limit 500) = clamp_count limit.
Proof.
  unfold clamp_count.
  destruct (Z.ltb_spec limit 1); [lia|].
  destruct (Z.ltb_spec 500 limit); lia.
Qed.

Lemma clamp_count_range (limit : Z) : (1 <= clamp_count limit <= 500)%Z.
Proof.
  unfold clamp_count.
  destruct (Z.ltb_spec limit 1); [lia|].
  destruct (Z.ltb_spec 500 limit); lia.
Qed.

Lemma not_after_trans (a b c : document) :
  not_after a b -> not_after b c -> not_after a c.
Proof.
  intros (s & t & Hs & Ht & Hst) (t' & u & Ht' & Hu & Htu).
  exists s, u. rewrite Ht in Ht'. injection Ht' as <-.
  repeat split; [assumption..|lia].
Qed.

Lemma StronglySorted_reverse {A : Type} (R : relation A) (l : list A) :
  StronglySorted R l -> StronglySorted (flip R) (reverse l).
Proof.
  induction 1 as [|x l Hs IH Hall]; [constructor|].
  rewrite reverse_cons. apply StronglySorted_app_2.
  - intros x1 x2 H1 H2. apply list_elem_of_singleton in H2 as ->.
    rewrite Forall_forall in Hall. apply Hall. now apply elem_of_reverse.
  - exact IH.
  - repeat constructor.
Qed.

(** Inserting a dated record into a list of dated records, most recent
    first, succeeds and keeps it so. *)
Lemma insert_desc_dated (x : document) (l : list document) :
  dated x -> Forall dated l -> StronglySorted (flip not_after) l ->
  exists l', insert_desc sort_key x l = Ok l' /\ x :: l ≡ₚ l' /\
             StronglySorted (flip not_after) l'.
Proof.
  intros [s Hs] Hl Hsorted.
  induction Hsorted as [|y rest Hrest IH Hall].
  - exists [x]. repeat split; [reflexivity | repeat constructor].
  - apply Forall_cons_1 in Hl as [[t Ht] Hl]. simpl. rewrite Hs, Ht. simpl.
    destruct (N.ltb_spec s t) as [Hlt|Hge].
    + destruct (IH Hl) as (rest' & -> & Hperm & Hsorted'). simpl.
      exists (y :: rest'). split; [reflexivity|]. split.
      * rewrite <- Hperm. apply perm_swap.
      * constructor; [exact Hsorted'|].
        rewrite <- Hperm. constructor; [|exact Hall].
        exists s, t. repeat split; [assumption..|lia].
    + exists (x :: y :: rest). split; [reflexivity|]. split; [reflexivity|].
      assert (Hyx : not_after y x) by (exists t, s; auto).
      constructor; [now constructor|].
      constructor; [exact Hyx|].
      eapply Forall_impl; [exact Hall|]. intros z Hz.
      unfold flip in *. eapply not_after_trans; eassumption.
Qed.

Lemma py_sorted_reverse_dated (l : list document) :
  Forall dated l ->
  exists l', py_sorted_reverse sort_key l = Ok l' /\ l ≡ₚ l' /\
             StronglySorted (flip not_after) l'.
Proof.
  induction 1 as [|x rest Hx Hrest IH].
  - exists []. repeat split; [reflexivity | constructor].
  - destruct IH as (s & Es & Hperm & Hsorted). simpl. rewrite Es. simpl.
    destruct (insert_desc_dated x s Hx) as (l' & El & Hperm' & Hsorted');
      [now rewrite <- Hperm | exact Hsorted|].
    exists l'. split; [exact El|]. split; [|exact Hsorted'].
    now rewrite Hperm.
Qed.

(** ** The history endpoint *)

Section History.

Variable store : Type.
Variable get_documents :
  string -> document -> option Z -> store -> (string + list document) * store.
Variable isoformat : datetime -> string.

(** In terms of the sort key: the history is the serialized list of the
    records with the greatest keys, as many as the clamped count allows, by
    increasing key. *)
Lemma get_history_window_by_key (limit : option Z) (st st' : store)
    (docs : list document) :
  get_documents COLLECTION ∅ None st = (inr docs, st') ->
  Forall dated docs ->
  let count := clamp_count (default 50%Z limit) in
  (1 <= count <= 500)%Z /\
  (limit = None -> count = 50%Z) /\
  exists older window : list document,
    get_history get_documents isoformat limit st
      = (Ok (_serialize isoformat <$> window), st') /\
    length window = Nat.min (Z.to_nat count) (length docs) /\
    docs ≡ₚ older ++ window /\
    (forall d d', d ∈ older -> d' ∈ window -> not_after d d') /\
    StronglySorted not_after window.
Proof.
  intros Hget Hdated count.
  split; [apply clamp_count_range|].
  split; [intros ->; reflexivity|].
  destruct (py_sorted_reverse_dated docs Hdated) as (l & El & Hperm & Hsorted).
  exists (reverse (drop (Z.to_nat count) l)), (reverse (take (Z.to_nat count) l)).
  rewrite <- (take_drop (Z.to_nat count) l) in Hsorted.
  apply StronglySorted_app in Hsorted as (Hcross & Htake & _).
  split; [|split; [|split; [|split]]].
  - unfold get_history, bind, lift, try_store, ret.
    rewrite Hget, El, clamp_count_max_min. reflexivity.
  - rewrite length_reverse, length_take, (Permutation_length Hperm). reflexivity.
  - rewrite Hperm, <- reverse_app, reverse_Permutation, take_drop. reflexivity.
  - intros d d' Hd Hd'. rewrite elem_of_reverse in Hd, Hd'.
    exact (Hcross d' d Hd' Hd).
  - apply (StronglySorted_reverse (flip not_after)). exact Htake.
Qed.

End History.

(** * Further properties of the code *)

(** ** Serialization *)

Section Serialize.

Variable isoformat : datetime -> string.

Lemma serialize_lookup_fmap (doc : document) (k : string) :
  _serialize isoformat doc !! k =
  (fun v => match v with
            | VDatetime t => VStr (isoformat t)
            | _ => v
            end) <$> delete "_id" doc !! k.
Proof. unfold _serialize. apply lookup_fmap. Qed.

Lemma serialize_no_id (doc : document) : _serialize isoformat doc !! "_id" = None.
Proof. rewrite serialize_lookup_fmap, lookup_delete_eq. reflexivity. Qed.

Lemma serialize_no_datetime (doc : document) (k : string) (t : datetime) :
  _serialize isoformat doc !! k <> Some (VDatetime t).
Proof.
  rewrite serialize_lookup_fmap.
  destruct (delete "_id" doc !! k) as [[]|]; simpl; congruence.
Qed.

Lemma serialize_lookup_ne (doc : document) (k : string) :
  k <> "_id" ->
  _serialize isoformat doc !! k =
  match doc !! k with
  | Some (VDatetime t) => Some (VStr (isoformat t))
  | other => other
  end.
Proof.
  intros Hk. rewrite serialize_lookup_fmap, lookup_delete_ne by congruence.
  destruct (doc !! k) as [[]|]; reflexivity.
Qed.

(** X1: a serialized document has no ["_id"] entry and holds no instant
    any more. *)
Theorem serialize_json_safe (doc : document) :
  _serialize isoformat doc !! "_id" = None /\
  forall (k : string) (t : datetime),
    _serialize isoformat doc !! k <> Some (VDatetime t).
Proof. split; [apply serialize_no_id | apply serialize_no_datetime]. Qed.

(** X2: every entry but ["_id"] is kept under its key: an instant as its
    ISO string, any other value unchanged, and a missing key stays missing. *)
Theorem serialize_keeps_fields (doc : document) (k : string) :
  k <> "_id" ->
  _serialize isoformat doc !! k =
  match doc !! k with
  | Some (VDatetime t) => Some (VStr (isoformat t))
  | other => other
  end.
Proof. apply serialize_lookup_ne. Qed.

(** X3: serializing twice is serializing once. *)
Theorem serialize_idempotent (doc : document) :
  _serialize isoformat (_serialize isoformat doc) = _serialize isoformat doc.
Proof.
  apply map_eq. intros k.
  destruct (decide (k = "_id")) as [->|Hk].
  - rewrite !serialize_no_id. reflexivity.
  - rewrite (serialize_lookup_ne (_serialize isoformat doc) k Hk).
    rewrite (serialize_lookup_ne doc k Hk).
    destruct (doc !! k) as [[]|]; reflexivity.
Qed.

End Serialize.

Lemma serialize_keeps_fields_witness :
  _serialize clock_isoformat
    {[ "_id" := VObjectId "65a1"; "aqi" := VInt 42; "timestamp" := VDatetime 7%N ]}
    !! "timestamp" = Some (VStr "07") /\
  _serialize clock_isoformat
    {[ "_id" := VObjectId "65a1"; "aqi" := VInt 42; "timestamp" := VDatetime 7%N ]}
    !! "aqi" = Some (VInt 42).
Proof.
  split.
  - rewrite (serialize_keeps_fields clock_isoformat _ "timestamp"); [reflexivity|].
    discriminate.
  - rewrite (serialize_keeps_fields clock_isoformat _ "aqi"); [reflexivity|].
    discriminate.
Defined.

(** ** Accuracy of the rounding *)

Lemma py_round_nearest (x : Q) :
  inject_Z (py_round x) - (1 # 2) <= x /\ x <= inject_Z (py_round x) + (1 # 2).
Proof.
  unfold py_round.
  pose proof (Qfloor_le x) as H1. pose proof (Qlt_floor x) as H2.
  rewrite inject_Z_plus in H2. change (inject_Z 1) with 1 in H2.
  destruct (Qcompare_spec (x - inject_Z (Qfloor x)) (1 # 2)) as [E|E|E];
    [destruct (Z.even (Qfloor x))|..];
    rewrite ?inject_Z_plus; change (inject_Z 1) with 1; lra.
Qed.

(** ** Monotonicity beyond the rows' ranges *)

Lemma py_round_le (x : Q) (k : Z) : x <= inject_Z k -> (py_round x <= k)%Z.
Proof.
  intros H. rewrite <- (py_round_inject_Z k). now apply py_round_mono.
Qed.

Lemma py_round_ge (x : Q) (k : Z) : inject_Z k - (1 # 2) < x -> (k <= py_round x)%Z.
Proof.
  intros H. destruct (py_round_nearest x) as [_ Hhi].
  assert (Hlt : inject_Z k < inject_Z (py_round x + 1)).
  { rewrite inject_Z_plus. change (inject_Z 1) with 1. lra. }
  rewrite <- Zlt_Qlt in Hlt. lia.
Qed.

Lemma py_max_0_mono (c1 c2 : Q) : c1 <= c2 -> py_max 0 c1 <= py_max 0 c2.
Proof.
  intros H. destruct (Qlt_le_dec 0 c1) as [H1|H1].
  - rewrite (py_max_0_nonneg c1), (py_max_0_nonneg c2); lra.
  - rewrite (py_max_0_neg c1) by lra. apply py_max_0_ge.
Qed.

Ltac row_arith := unfold interpolated, inject_Z; simpl in *; slope_constants; lra.

(** Two concentrations in rows [i < j]: the first sub-index is at most [k],
    the second at least [k - slack]. *)
Ltac across_rows k slack :=
  match goal with
  | |- (py_round ?e1 <= py_round ?e2 + ?s)%Z =>
      let H1 := fresh in
      let H2 := fresh in
      let k' := eval vm_compute in (k - slack)%Z in
      assert (H1 : (py_round e1 <= k)%Z) by (apply py_round_le; row_arith);
      assert (H2 : (k' <= py_round e2)%Z) by (apply py_round_ge; row_arith);
      lia
  end.

Ltac two_points slack :=
  first
    [ exfalso; simpl in *; lra
    | match goal with
      | |- (py_round ?e1 <= py_round ?e2 + _)%Z =>
          let H := fresh in
          assert (H : (py_round e1 <= py_round e2)%Z)
            by (apply py_round_mono; row_arith);
          lia
      end
    | across_rows 50%Z slack | across_rows 100%Z slack | across_rows 200%Z slack
    | across_rows 300%Z slack | across_rows 400%Z slack
    | match goal with
      | |- (py_round ?e1 <= 500 + _)%Z =>
          let H := fresh in
          assert (H : (py_round e1 <= 500)%Z) by (apply py_round_le; row_arith);
          lia
      end
    | lia ].

Lemma sub_index_pm10_dip_at_most_0 (c1 c2 : Q) :
  c1 <= c2 ->
  exists i1 i2 : Z,
    sub_index_pm10 c1 = Ok i1 /\ sub_index_pm10 c2 = Ok i2 /\ (i1 <= i2 + 0)%Z.
Proof.
  intros H. apply py_max_0_mono in H.
  unfold sub_index_pm10, _calc_sub_index, bps_pm10.
  pose proof (py_max_0_ge c1) as H0.
  set (a := py_max 0 c1) in *. set (b := py_max 0 c2) in *. clearbody a b.
  scan_rows a; scan_rows b;
    (do 2 eexists; split; [reflexivity|]; split; [reflexivity|]);
    two_points 0%Z.
Qed.

(** X6: the PM10 sub-index is monotone over all concentrations, the
    negative ones, those between two rows and those beyond the last row
    included. *)
Theorem sub_index_pm10_monotone_everywhere (c1 c2 : Q) :
  c1 <= c2 ->
  exists i1 i2 : Z,
    sub_index_pm10 c1 = Ok i1 /\ sub_index_pm10 c2 = Ok i2 /\ (i1 <= i2)%Z.
Proof.
  intros H.
  destruct (sub_index_pm10_dip_at_most_0 c1 c2 H) as (i1 & i2 & H1 & H2 & Hle).
  exists i1, i2. repeat split; [assumption..|lia].
Qed.

Lemma sub_index_pm10_monotone_everywhere_witness :
  exists i1 i2 : Z,
    sub_index_pm10 350 = Ok i1 /\ sub_index_pm10 (35001 # 100) = Ok i2 /\
    (i1 <= i2)%Z.
Proof. apply (sub_index_pm10_monotone_everywhere 350 (35001 # 100)). lra. Defined.

(** X7: the PM2.5 sub-index is monotone up to 2: over all concentrations, a
    larger concentration never gets a sub-index more than 2 below that of a
    smaller one. *)
Theorem sub_index_pm25_dip_at_most_2 (c1 c2 : Q) :
  c1 <= c2 ->
  exists i1 i2 : Z,
    sub_index_pm25 c1 = Ok i1 /\ sub_index_pm25 c2 = Ok i2 /\ (i1 <= i2 + 2)%Z.
Proof.
  intros H. apply py_max_0_mono in H.
  unfold sub_index_pm25, _calc_sub_index, bps_pm25.
  pose proof (py_max_0_ge c1) as H0.
  set (a := py_max 0 c1) in *. set (b := py_max 0 c2) in *. clearbody a b.
  scan_rows a; scan_rows b;
    (do 2 eexists; split; [reflexivity|]; split; [reflexivity|]);
    two_points 2%Z.
Qed.

Lemma sub_index_pm25_dip_at_most_2_witness :
  sub_index_pm25 60 = Ok 100%Z /\ sub_index_pm25 (6001 # 100) = Ok 98%Z /\
  exists i1 i2 : Z,
    sub_index_pm25 60 = Ok i1 /\ sub_index_pm25 (6001 # 100) = Ok i2 /\
    (i1 <= i2 + 2)%Z.
Proof.
  split; [reflexivity|]. split; [reflexivity|].
  apply (sub_index_pm25_dip_at_most_2 60 (6001 # 100)). lra.
Defined.

Lemma integer_in_ranges_pm25 (n : Z) :
  (0 <= n <= 350)%Z -> in_ranges bps_pm25 (inject_Z n).
Proof.
  intros Hn.
  assert (Hcases : (0 <= n <= 30 \/ 31 <= n <= 60 \/ 61 <= n <= 90 \/
                    91 <= n <= 120 \/ 121 <= n <= 250 \/ 251 <= n <= 350)%Z) by lia.
  unfold in_ranges.
  destruct Hcases as [H|[H|[H|[H|[H|H]]]]]; destruct H as [Hlo Hhi];
    rewrite Zle_Qle in Hlo, Hhi;
    [ exists (Breakpoint 0 30 0 50) | exists (Breakpoint 31 60 51 100)
    | exists (Breakpoint 61 90 101 200) | exists (Breakpoint 91 120 201 300)
    | exists (Breakpoint 121 250 301 400) | exists (Breakpoint 251 350 401 500) ];
    (split; [simpl; tauto | split; [exact Hlo | exact Hhi]]).
Qed.

(** X8: on whole-number concentrations the PM2.5 sub-index is monotone
    everywhere: every integer from 0 to 350 lies in a row, a negative one
    counts as 0, and beyond 350 the sub-index is the ceiling. *)
Theorem sub_index_pm25_monotone_integers (n m : Z) :
  (n <= m)%Z ->
  exists i1 i2 : Z,
    sub_index_pm25 (inject_Z n) = Ok i1 /\ sub_index_pm25 (inject_Z m) = Ok i2 /\
    (i1 <= i2)%Z.
Proof.
  intros Hnm.
  destruct (sub_index_pm25_range (inject_Z n)) as (i1 & H1 & R1).
  destruct (sub_index_pm25_range (inject_Z m)) as (i2 & H2 & R2).
  exists i1, i2. split; [exact H1|]. split; [exact H2|].
  destruct (Z_lt_le_dec 350 m) as [Hbig|Hm].
  - assert (E : sub_index_pm25 (inject_Z m) = Ok 500%Z).
    { apply calc_sub_index_beyond.
      - change 0 with (inject_Z 0). rewrite <- Zle_Qle. lia.
      - assert (inject_Z 350 < inject_Z m) by (rewrite <- Zlt_Qlt; exact Hbig).
        change (inject_Z 350) with 350 in *.
        repeat constructor; simpl; lra. }
    rewrite E in H2. injection H2 as <-. lia.
  - destruct (Z_lt_le_dec m 0) as [Hneg|Hm0].
    + assert (Hn0 : inject_Z n < inject_Z 0) by (rewrite <- Zlt_Qlt; lia).
      assert (Hm0 : inject_Z m < inject_Z 0) by (rewrite <- Zlt_Qlt; lia).
      change (inject_Z 0) with 0 in *.
      unfold sub_index_pm25 in *.
      rewrite calc_sub_index_negative in H1, H2 by assumption.
      rewrite H1 in H2. injection H2 as <-. lia.
    + set (n' := Z.max 0 n).
      assert (E1 : sub_index_pm25 (inject_Z n') = Ok i1).
      { destruct (Z_lt_le_dec n 0) as [Hneg|Hn0].
        - replace n' with 0%Z by lia. rewrite <- H1. symmetry.
          apply calc_sub_index_negative. change 0 with (inject_Z 0).
          rewrite <- Zlt_Qlt. exact Hneg.
        - replace n' with n by lia. exact H1. }
      destruct (calc_sub_index_monotone bps_pm25 (inject_Z n') (inject_Z m)
                  bps_pm25_ok) as (j1 & j2 & J1 & J2 & Hle).
      * apply integer_in_ranges_pm25. lia.
      * apply integer_in_ranges_pm25. lia.
      * rewrite <- Zle_Qle. lia.
      * unfold sub_index_pm25 in *. congruence.
Qed.

Lemma sub_index_pm25_monotone_integers_witness :
  sub_index_pm25 30 = Ok 50%Z /\ sub_index_pm25 31 = Ok 51%Z /\
  exists i1 i2 : Z,
    sub_index_pm25 (inject_Z 30) = Ok i1 /\ sub_index_pm25 (inject_Z 31) = Ok i2 /\
    (i1 <= i2)%Z.
Proof.
  split; [reflexivity|]. split; [reflexivity|].
  apply (sub_index_pm25_monotone_integers 30 31). lia.
Defined.

(** ** Rows and categories *)

Lemma calc_sub_index_row_bounds (table : list breakpoint) (r : breakpoint)
    (c : Q) (a b : Z) :
  table_ok table -> In r table -> Cl r <= c -> c <= Ch r ->
  Il r == inject_Z a -> Ih r == inject_Z b ->
  exists i : Z, _calc_sub_index c table = Ok i /\ (a <= i <= b)%Z.
Proof.
  intros Hok Hin Hlo Hhi Ha Hb.
  exists (py_round (interpolated r c)).
  split; [now apply calc_sub_index_in_range|].
  assert (Hr : row_ok r).
  { destruct Hok as [Hrows _]. rewrite List.Forall_forall in Hrows. auto. }
  destruct (interpolated_within r Hr c Hlo Hhi) as [H1 H2].
  apply py_round_between; lra.
Qed.

Ltac row_category tbl tbl_ok c :=
  match goal with
  | Hlo : Cl ?r <= c, Hhi : c <= Ch ?r |- _ =>
      let i := fresh "i" in
      let Hi := fresh "Hi" in
      let Hb := fresh "Hb" in
      let a := eval vm_compute in (Qfloor (Il r)) in
      let b := eval vm_compute in (Qfloor (Ih r)) in
      destruct (calc_sub_index_row_bounds tbl r c a b tbl_ok) as (i & Hi & Hb);
      [simpl; tauto | exact Hlo | exact Hhi | reflexivity | reflexivity |];
      exists i; split; [exact Hi|];
      unfold aqi_category;
      repeat match goal with
             | |- context [(?x <=? ?y)%Z] => destruct (Z.leb_spec x y)
             end;
      first [reflexivity | exfalso; lia]
  end.

(** X9: the rows of both tables are aligned with the category bands: a
    concentration within the range of the k-th row gets a sub-index whose
    category is the k-th label. *)
Theorem row_gives_category (k : nat) (r : breakpoint) (c : Q) :
  Cl r <= c -> c <= Ch r ->
  (bps_pm25 !! k = Some r ->
   exists i : Z, sub_index_pm25 c = Ok i /\ categories !! k = Some (aqi_category i)) /\
  (bps_pm10 !! k = Some r ->
   exists i : Z, sub_index_pm10 c = Ok i /\ categories !! k = Some (aqi_category i)).
Proof.
  intros Hlo Hhi. split; intros Hk.
  - do 6 (destruct k as [|k]; [injection Hk as <-; row_category bps_pm25 bps_pm25_ok c|]).
    discriminate.
  - do 6 (destruct k as [|k]; [injection Hk as <-; row_category bps_pm10 bps_pm10_ok c|]).
    discriminate.
Qed.

Lemma row_gives_category_witness :
  exists i : Z,
    sub_index_pm25 100 = Ok i /\ categories !! 3%nat = Some (aqi_category i).
Proof.
  apply (row_gives_category 3 (Breakpoint 91 120 201 300) 100);
    [simpl; lra | simpl; lra | reflexivity].
Defined.

(** X10: over all integers the label tells the band: each label is returned
    on its band and nowhere else. *)
Theorem aqi_category_iff (aqi : Z) :
  (aqi_category aqi = "Good" <-> (aqi <= 50)%Z) /\
  (aqi_category aqi = "Satisfactory" <-> (51 <= aqi <= 100)%Z) /\
  (aqi_category aqi = "Moderate" <-> (101 <= aqi <= 200)%Z) /\
  (aqi_category aqi = "Poor" <-> (201 <= aqi <= 300)%Z) /\
  (aqi_category aqi = "Very Poor" <-> (301 <= aqi <= 400)%Z) /\
  (aqi_category aqi = "Severe" <-> (400 < aqi)%Z).
Proof.
  unfold aqi_category.
  repeat match goal with
         | |- context [(?a <=? ?b)%Z] => destruct (Z.leb_spec a b)
         end;
    repeat split; intros; try lia; try reflexivity; discriminate.
Qed.

Lemma aqi_category_iff_witness :
  aqi_category 100 = "Satisfactory" /\ aqi_category 401 = "Severe".
Proof.
  split.
  - apply (aqi_category_iff 100). lia.
  - apply (aqi_category_iff 401). lia.
Defined.

(** ** More on sorting *)

Lemma insert_desc_perm {A : Type} (key : A -> value) (x : A) (l l' : list A) :
  insert_desc key x l = Ok l' -> x :: l ≡ₚ l'.
Proof.
  revert l'. induction l as [|y rest IH]; intros l'; simpl.
  - intros [= <-]. reflexivity.
  - destruct (py_lt (key x) (key y)) as [[|]|e]; simpl; [|intros [= <-]; reflexivity|discriminate].
    destruct (insert_desc key x rest) as [rest'|e]; simpl; [|discriminate].
    intros [= <-]. rewrite <- (IH rest' eq_refl). apply perm_swap.
Qed.

(** Whenever the sort returns, it returns a rearrangement of its input. *)
Lemma py_sorted_reverse_perm {A : Type} (key : A -> value) (l l' : list A) :
  py_sorted_reverse key l = Ok l' -> l ≡ₚ l'.
Proof.
  revert l'. induction l as [|x rest IH]; intros l'; simpl.
  - intros [= <-]. reflexivity.
  - destruct (py_sorted_reverse key rest) as [s|e]; simpl; [|discriminate].
    intros H. apply insert_desc_perm in H. rewrite <- H. now rewrite (IH s).
Qed.

Lemma py_sorted_reverse_nonempty {A : Type} (key : A -> value) (x : A)
    (rest l' : list A) :
  py_sorted_reverse key (x :: rest) = Ok l' -> exists h t, l' = h :: t.
Proof.
  intros H. apply py_sorted_reverse_perm in H.
  destruct l' as [|h t]; [|eauto].
  symmetry in H. apply Permutation_nil in H. discriminate.
Qed.

Lemma older_not_after (a b c : document) :
  older_than a b -> not_after b c -> not_after a c.
Proof.
  intros (s & t & Hs & Ht & Hst) (t' & u & Ht' & Hu & Htu).
  rewrite Ht in Ht'. injection Ht' as <-.
  exists s, u. repeat split; [assumption..|lia].
Qed.

(** The head of the sorted list is the first of the most recent records, in
    the order of the input. *)
Lemma py_sorted_reverse_head (l : list document) (h : document) (t : list document) :
  Forall dated l ->
  py_sorted_reverse sort_key l = Ok (h :: t) ->
  exists l1 l2, l = l1 ++ h :: l2 /\
                Forall (fun d => older_than d h) l1 /\
                Forall (fun d => not_after d h) l2.
Proof.
  intros Hdated. revert h t.
  induction Hdated as [|x rest [kx Hx] Hrest IH]; intros h t; simpl; [discriminate|].
  destruct (py_sorted_reverse sort_key rest) as [[|y s]|e] eqn:Es; simpl;
    [| |discriminate].
  - intros [= <- <-]. apply py_sorted_reverse_perm in Es.
    symmetry in Es. apply Permutation_nil in Es. subst rest.
    exists [], []. repeat split; constructor.
  - destruct (IH y s eq_refl) as (r1 & r2 & -> & Hr1 & Hr2).
    apply Forall_app in Hrest as [_ Hy]. apply Forall_cons_1 in Hy as [[ky Hy] _].
    rewrite Hx, Hy. simpl. destruct (N.ltb_spec kx ky) as [Hlt|Hge].
    + destruct (insert_desc sort_key x s) as [s'|e]; simpl; [|discriminate].
      intros [= <- <-]. exists (x :: r1), r2. split; [reflexivity|].
      split; [|exact Hr2]. constructor; [|exact Hr1].
      exists kx, ky. auto.
    + intros [= <- <-]. exists [], (r1 ++ y :: r2). split; [reflexivity|].
      split; [constructor|].
      assert (Hyx : not_after y x) by (exists ky, kx; auto).
      apply Forall_app. split; [|constructor; [exact Hyx|]].
      * eapply Forall_impl; [exact Hr1|]. intros d Hd.
        exact (older_not_after d y x Hd Hyx).
      * eapply Forall_impl; [exact Hr2|]. intros d Hd.
        exact (not_after_trans d y x Hd Hyx).
Qed.

Lemma py_lt_not_datetime_l (v : value) (t : datetime) :
  (forall s, v <> VDatetime s) -> py_lt v (VDatetime t) = Raise TypeError.
Proof. intros H. destruct v; try reflexivity. now destruct (H t0). Qed.

Lemma py_lt_not_datetime_r (v : value) (t : datetime) :
  (forall s, v <> VDatetime s) -> py_lt (VDatetime t) v = Raise TypeError.
Proof. intros H. destruct v; try reflexivity. now destruct (H t0). Qed.

(** One record whose sort key is not an instant, among records whose keys
    are, makes the sort raise, wherever it stands. *)
Lemma py_sorted_reverse_mixed (l1 l2 : list document) (x : document) :
  ~ dated x -> Forall dated (l1 ++ l2) -> l1 ++ l2 <> [] ->
  py_sorted_reverse sort_key (l1 ++ x :: l2) = Raise TypeError.
Proof.
  intros Hx. assert (Hkey : forall s, sort_key x <> VDatetime s).
  { intros s Hs. apply Hx. now exists s. }
  induction l1 as [|a l1 IH]; simpl; intros Hdated Hne.
  - destruct (py_sorted_reverse_dated l2 Hdated) as (s & -> & Hperm & _). simpl.
    destruct s as [|y s].
    + symmetry in Hperm. apply Permutation_nil in Hperm. contradiction.
    + assert (Hy : dated y).
      { rewrite Forall_forall in Hdated. apply Hdated. rewrite Hperm. left. }
      destruct Hy as [ky Hy]. simpl. rewrite Hy.
      rewrite py_lt_not_datetime_l by exact Hkey. reflexivity.
  - apply Forall_cons_1 in Hdated as [[ka Ha] Hdated].
    destruct (decide (l1 ++ l2 = [])) as [Hnil|Hne'].
    + apply app_eq_nil in Hnil as [-> ->]. simpl. rewrite Ha.
      rewrite py_lt_not_datetime_r by exact Hkey. reflexivity.
    + rewrite (IH Hdated Hne'). reflexivity.
Qed.

Lemma length_substring_le (n : nat) (s : string) :
  (String.length (String.substring 0 n s) <= n)%nat.
Proof.
  revert s. induction n as [|n IH]; intros [|c s]; simpl; try lia.
  specialize (IH s). lia.
Qed.

Lemma length_append (s1 s2 : string) :
  String.length (s1 ++ s2) = (String.length s1 + String.length s2)%nat.
Proof. induction s1 as [|c s1 IH]; simpl; [reflexivity | now rewrite IH]. Qed.

Lemma length_error_detail (msg : string) :
  (String.length ("Database error: " ++ String.substring 0 120 msg) <= 136)%nat.
Proof.
  rewrite length_append. pose proof (length_substring_le 120 msg). simpl. lia.
Qed.

(** ** The endpoints and the store *)

Section Store.

Variable store : Type.
Variable create_document : string -> document -> store -> (string + string) * store.
Variable get_documents :
  string -> document -> option Z -> store -> (string + list document) * store.
Variable isoformat : datetime -> string.

Lemma ingest_reading_cases (p : IngestReading) (now : datetime) (st : store) :
  exists (aqi : Z) (category : string),
    (exists id st',
       create_document COLLECTION (ingest_data p aqi category now) st = (inr id, st') /\
       ingest_reading create_document p now st = (Ok (ingest_reply aqi category), st')) \/
    (exists msg st',
       create_document COLLECTION (ingest_data p aqi category now) st = (inl msg, st') /\
       ingest_reading create_document p now st
       = (Raise (HTTPException 500 ("Database error: " ++ String.substring 0 120 msg)),
          st')).
Proof.
  destruct (sub_index_pm25_range (pm25 p)) as (s25 & H25 & _).
  destruct (sub_index_pm10_range (pm10 p)) as (s10 & H10 & _).
  exists (Z.max s25 s10), (aqi_category (Z.max s25 s10)).
  rewrite (ingest_reading_computed store create_document p now st s25 s10 H25 H10).
  simpl.
  destruct (create_document _ _ st) as [[msg|id] st'].
  - right. exists msg, st'. split; reflexivity.
  - left. exists id, st'. split; reflexivity.
Qed.

(** X11: for every payload, also one with negative concentrations,
    [ingest_reading] calls the store once and either returns the reply, or
    turns the store's failure into an HTTP error 500 whose detail is
    ["Database error: "] followed by at most 120 characters of the message;
    it raises nothing else. *)
Theorem ingest_reading_outcome (p : IngestReading) (now : datetime) (st : store) :
  exists (aqi : Z) (category : string),
    (exists id st',
       create_document COLLECTION (ingest_data p aqi category now) st = (inr id, st') /\
       ingest_reading create_document p now st = (Ok (ingest_reply aqi category), st')) \/
    (exists msg st' detail,
       create_document COLLECTION (ingest_data p aqi category now) st = (inl msg, st') /\
       ingest_reading create_document p now st = (Raise (HTTPException 500 detail), st') /\
       detail = ("Database error: " ++ String.substring 0 120 msg)%string /\
       (String.length detail <= 136)%nat).
Proof.
  destruct (ingest_reading_cases p now st) as (aqi & category & [H|H]);
    exists aqi, category; [left; exact H | right].
  destruct H as (msg & st' & Hc & E).
  exists msg, st', ("Database error: " ++ String.substring 0 120 msg)%string.
  repeat split; [exact Hc | exact E | apply length_error_detail].
Qed.

(** X12: a PM2.5 concentration above 350 or a PM10 concentration above 600
    decides the reading, whatever the other pollutant is: the index stored
    and returned is 500 and the category Severe. *)
Theorem ingest_reading_saturated (p : IngestReading) (now : datetime) (st : store) :
  350 < pm25 p \/ 600 < pm10 p ->
  ingest_reading create_document p now st =
  match create_document COLLECTION (ingest_data p 500 "Severe" now) st with
  | (inr _, st') => (Ok (ingest_reply 500 "Severe"), st')
  | (inl msg, st') =>
      (Raise (HTTPException 500 ("Database error: " ++ String.substring 0 120 msg)), st')
  end.
Proof.
  intros Hsat.
  destruct (sub_index_pm25_range (pm25 p)) as (s25 & H25 & R25).
  destruct (sub_index_pm10_range (pm10 p)) as (s10 & H10 & R10).
  rewrite (ingest_reading_computed store create_document p now st s25 s10 H25 H10).
  assert (E : Z.max s25 s10 = 500%Z).
  { destruct Hsat as [H|H].
    - assert (E : sub_index_pm25 (pm25 p) = Ok 500%Z).
      { apply calc_sub_index_beyond; [lra|]. repeat constructor; simpl; lra. }
      rewrite E in H25. injection H25 as <-. lia.
    - assert (E : sub_index_pm10 (pm10 p) = Ok 500%Z).
      { apply calc_sub_index_beyond; [lra|]. repeat constructor; simpl; lra. }
      rewrite E in H10. injection H10 as <-. lia. }
  simpl. rewrite E. reflexivity.
Qed.

Lemma get_latest_nonempty (now : datetime) (st st' : store)
    (docs : list document) :
  get_documents COLLECTION ∅ None st = (inr docs, st') ->
  Forall dated docs -> docs <> [] ->
  exists l1 d l2,
    docs = l1 ++ d :: l2 /\
    get_latest get_documents isoformat now st = (Ok (_serialize isoformat d), st') /\
    Forall (fun d' => older_than d' d) l1 /\
    Forall (fun d' => not_after d' d) l2.
Proof.
  intros Hget Hdated Hne. unfold get_latest, bind, try_store, lift, ret. rewrite Hget.
  destruct docs as [|first rest]; [contradiction|].
  destruct (py_sorted_reverse_dated _ Hdated) as (l & El & _ & _).
  destruct (py_sorted_reverse_nonempty _ _ _ _ El) as (h & t & ->).
  destruct (py_sorted_reverse_head _ h t Hdated El) as (l1 & l2 & E & H1 & H2).
  exists l1, h, l2. rewrite El. simpl. auto.
Qed.

(** X13: [get_latest] on stored records whose sort keys are instants: with
    nothing stored it answers with the default reading (index 0, Good); else
    it answers with a most recent record, serialized, and among several
    most recent ones with the one stored first. *)
Theorem get_latest_first_most_recent (now : datetime) (st st' : store)
    (docs : list document) :
  get_documents COLLECTION ∅ None st = (inr docs, st') ->
  Forall dated docs ->
  (docs = [] ->
   get_latest get_documents isoformat now st = (Ok (latest_default isoformat now), st')) /\
  (docs <> [] ->
   exists l1 d l2,
     docs = l1 ++ d :: l2 /\
     get_latest get_documents isoformat now st = (Ok (_serialize isoformat d), st') /\
     Forall (fun d' => older_than d' d) l1 /\
     Forall (fun d' => not_after d' d) l2).
Proof.
  intros Hget Hdated. split.
  - intros ->. unfold get_latest, bind, try_store, lift, ret. rewrite Hget.
    reflexivity.
  - now apply get_latest_nonempty.
Qed.

(** X14: whenever [get_latest] returns on a collection that is not empty,
    [get_history] returns too, with any limit, and its last record is the one
    [get_latest] returns. *)
Theorem get_history_ends_with_latest (limit : option Z) (now : datetime)
    (st st' st'' : store) (docs : list document) (latest : document) :
  get_documents COLLECTION ∅ None st = (inr docs, st') ->
  docs <> [] ->
  get_latest get_documents isoformat now st = (Ok latest, st'') ->
  exists history,
    get_history get_documents isoformat limit st = (Ok history, st') /\
    last history = Some latest.
Proof.
  intros Hget Hne. unfold get_latest, get_history, bind, try_store, lift, ret.
  rewrite Hget. destruct docs as [|first rest]; [contradiction|].
  destruct (py_sorted_reverse sort_key (first :: rest)) as [l|e] eqn:El;
    [|discriminate].
  destruct (py_sorted_reverse_nonempty _ _ _ _ El) as (h & t & ->).
  simpl. intros [= <- <-].
  eexists. split; [reflexivity|].
  rewrite clamp_count_max_min.
  pose proof (clamp_count_range (default 50%Z limit)) as Hc.
  destruct (Z.to_nat (clamp_count (default 50%Z limit))) as [|n] eqn:En; [lia|].
  rewrite fmap_last, firstn_cons, reverse_cons, last_snoc. reflexivity.
Qed.

(** X15: asking for more records only adds older ones in front: for limits
    [a <= b] the history of [a] is the end of the history of [b]. *)
Theorem get_history_suffix (a b : Z) (st s1 s2 : store) (ha hb : list document) :
  (a <= b)%Z ->
  get_history get_documents isoformat (Some a) st = (Ok ha, s1) ->
  get_history get_documents isoformat (Some b) st = (Ok hb, s2) ->
  ha `suffix_of` hb.
Proof.
  intros Hab. unfold get_history, bind, try_store, lift, ret.
  destruct (get_documents COLLECTION ∅ None st) as [[msg|docs] st'];
    [discriminate|].
  destruct (py_sorted_reverse sort_key docs) as [l|e]; [|discriminate].
  simpl. intros [= <- <-] [= <- <-].
  set (na := Z.to_nat (Z.max 1 (Z.min a 500))).
  set (nb := Z.to_nat (Z.max 1 (Z.min b 500))).
  assert (Hn : (na <= nb)%nat) by (unfold na, nb; lia).
  exists (_serialize isoformat <$> reverse (drop na (take nb l))).
  rewrite <- fmap_app, <- reverse_app. do 2 f_equal.
  rewrite <- (take_drop na (take nb l)) at 1.
  rewrite take_take. f_equal. f_equal. lia.
Qed.

(** X16: a limit of 1 or less (zero, negative) gives the history of limit 1,
    a limit of 500 or more that of limit 500, and no limit that of limit 50. *)
Theorem get_history_limit_clamped (limit : Z) (st : store) :
  ((limit <= 1)%Z ->
   get_history get_documents isoformat (Some limit) st
   = get_history get_documents isoformat (Some 1%Z) st) /\
  ((500 <= limit)%Z ->
   get_history get_documents isoformat (Some limit) st
   = get_history get_documents isoformat (Some 500%Z) st) /\
  get_history get_documents isoformat None st
  = get_history get_documents isoformat (Some 50%Z) st.
Proof.
  unfold get_history. simpl. repeat split.
  - intros H. replace (Z.max 1 (Z.min limit 500)) with 1%Z by lia. reflexivity.
  - intros H. replace (Z.max 1 (Z.min limit 500)) with 500%Z by lia. reflexivity.
Qed.

(** X17: when the store fails, both read endpoints raise an HTTP error 500
    whose detail is ["Database error: "] followed by at most 120 characters
    of the store's message. *)
Theorem reads_store_failure (limit : option Z) (now : datetime) (st st' : store)
    (msg : string) :
  get_documents COLLECTION ∅ None st = (inl msg, st') ->
  let detail := ("Database error: " ++ String.substring 0 120 msg)%string in
  get_history get_documents isoformat limit st = (Raise (HTTPException 500 detail), st') /\
  get_latest get_documents isoformat now st = (Raise (HTTPException 500 detail), st') /\
  (String.length detail <= 136)%nat.
Proof.
  intros Hget detail.
  unfold get_history, get_latest, bind, try_store, lift, ret. rewrite Hget.
  repeat split. apply length_error_detail.
Qed.

(** X18: one stored record whose sort key is not an instant (say a
    time stamp kept as a string), among at least one record whose key is,
    makes both read endpoints raise a [TypeError], which they do not turn
    into an HTTP error. *)
Theorem reads_type_error (limit : option Z) (now : datetime) (st st' : store)
    (l1 l2 : list document) (x : document) :
  get_documents COLLECTION ∅ None st = (inr (l1 ++ x :: l2), st') ->
  ~ dated x -> Forall dated (l1 ++ l2) -> l1 ++ l2 <> [] ->
  get_history get_documents isoformat limit st = (Raise TypeError, st') /\
  get_latest get_documents isoformat now st = (Raise TypeError, st').
Proof.
  intros Hget Hx Hdated Hne.
  pose proof (py_sorted_reverse_mixed l1 l2 x Hx Hdated Hne) as E.
  unfold get_history, get_latest, bind, try_store, lift, ret. rewrite Hget, E.
  split; [reflexivity|].
  destruct (l1 ++ x :: l2) eqn:El; [|reflexivity].
  destruct l1; discriminate.
Qed.

(** X19: no record the read endpoints return has an ["_id"] entry or holds
    an instant, the default reading included. *)
Theorem reads_json_safe (limit : option Z) (now : datetime) (st st' : store) :
  (forall history,
     get_history get_documents isoformat limit st = (Ok history, st') ->
     Forall (fun d : document =>
               d !! "_id" = None /\ forall k t, d !! k <> Some (VDatetime t))
            history) /\
  (forall latest,
     get_latest get_documents isoformat now st = (Ok latest, st') ->
     latest !! "_id" = None /\ forall k t, latest !! k <> Some (VDatetime t)).
Proof.
  unfold get_history, get_latest, bind, try_store, lift, ret.
  destruct (get_documents COLLECTION ∅ None st) as [[msg|docs] st1].
  { split; intros ?; discriminate. }
  split.
  - intros history.
    destruct (py_sorted_reverse sort_key docs) as [l|e]; [|discriminate].
    simpl. intros [= <- <-]. apply Forall_fmap, Forall_forall.
    intros d _. split; [apply serialize_no_id | apply serialize_no_datetime].
  - intros latest. destruct docs as [|first rest].
    + intros [= <- <-]. split; [reflexivity|].
      intros k t. unfold latest_default.
      repeat (rewrite lookup_insert; case_decide; [discriminate|]).
      rewrite lookup_singleton. case_decide; discriminate.
    + destruct (py_sorted_reverse sort_key (first :: rest)) as [l|e]; [|discriminate].
      simpl. intros [= <- <-].
      split; [apply serialize_no_id | apply serialize_no_datetime].
Qed.

(** X20: what is ingested is what [get_latest] answers next, on a store
    that appends: when the stored records all have older instants as sort
    keys, the answer carries the index and the category of the reply, the
    payload's concentrations and the ISO string of the instant of the
    ingestion. *)
Theorem ingest_then_latest (p : IngestReading) (now now' : datetime)
    (st st1 st2 : store) (docs : list document) (reply : document) :
  ingest_reading create_document p now st = (Ok reply, st1) ->
  (forall data id,
     create_document COLLECTION data st = (inr id, st1) ->
     get_documents COLLECTION ∅ None st1 = (inr (docs ++ [data]), st2)) ->
  Forall (fun d => exists t, sort_key d = VDatetime t /\ (t < now)%N) docs ->
  exists latest,
    get_latest get_documents isoformat now' st1 = (Ok latest, st2) /\
    latest !! "aqi" = reply !! "aqi" /\
    latest !! "category" = reply !! "category" /\
    latest !! "pm25" = Some (VFloat (pm25 p)) /\
    latest !! "pm10" = Some (VFloat (pm10 p)) /\
    latest !! "timestamp" = Some (VStr (isoformat now)).
Proof.
  intros Hing Hstore Hold.
  destruct (ingest_reading_cases p now st) as (aqi & category & [H|H]).
  2:{ destruct H as (msg & st' & _ & E). congruence. }
  destruct H as (id & st' & Hcreate & E).
  rewrite E in Hing. injection Hing as <- <-.
  set (data := ingest_data p aqi category now) in *.
  pose proof (Hstore data id Hcreate) as Hget.
  assert (Hdated : Forall dated (docs ++ [data])).
  { apply Forall_app. split.
    - eapply Forall_impl; [exact Hold|]. intros d (t & Ht & _). now exists t.
    - repeat constructor. now exists now. }
  destruct (get_latest_nonempty now' st' st2 _ Hget Hdated)
    as (l1 & d & l2 & Esplit & Hlatest & H1 & H2).
  { destruct docs; discriminate. }
  assert (Ed : d = data).
  { assert (Hin : d ∈ docs ++ [data]) by (rewrite Esplit; set_solver).
    apply elem_of_app in Hin as [Hdocs|Hlast];
      [|now apply list_elem_of_singleton in Hlast].
    exfalso. rewrite Forall_forall in Hold.
    destruct (Hold d Hdocs) as (t & Ht & Hlt).
    assert (Hdata : data ∈ l1 ++ d :: l2) by (rewrite <- Esplit; set_solver).
    apply elem_of_app in Hdata as [Hdata1|Hdata2].
    - rewrite Forall_forall in H1. destruct (H1 data Hdata1) as (s & t' & Hs & Ht' & Hlt').
      rewrite Ht in Ht'. injection Ht' as <-.
      unfold data in Hs. rewrite ingest_data_dated in Hs. injection Hs as <-. lia.
    - apply elem_of_cons in Hdata2 as [Heq|Hdata2].
      + subst d. unfold data in Ht. rewrite ingest_data_dated in Ht.
        injection Ht as <-. lia.
      + rewrite Forall_forall in H2. destruct (H2 data Hdata2) as (s & t' & Hs & Ht' & Hle).
        rewrite Ht in Ht'. injection Ht' as <-.
        unfold data in Hs. rewrite ingest_data_dated in Hs. injection Hs as <-. lia. }
  subst d. exists (_serialize isoformat data). split; [exact Hlatest|].
  repeat split; reflexivity.
Qed.

End Store.

Lemma ingest_reading_saturated_witness :
  ingest_reading memory_create_document (reading 10 601) 7%N []
  = (Ok (ingest_reply 500 "Severe"), [ingest_data (reading 10 601) 500 "Severe" 7%N]).
Proof.
  rewrite (ingest_reading_saturated (list document) memory_create_document
             (reading 10 601) 7%N []); [reflexivity|].
  right. simpl. lra.
Defined.

Lemma get_latest_first_most_recent_witness :
  fst (get_latest memory_get_documents clock_isoformat 9%N
         [ {[ "timestamp" := VDatetime 3%N; "aqi" := VInt 10 ]};
           {[ "timestamp" := VDatetime 7%N; "aqi" := VInt 20 ]};
           {[ "timestamp" := VDatetime 7%N; "aqi" := VInt 30 ]} ])
  = Ok {[ "timestamp" := VStr "07"; "aqi" := VInt 20 ]} /\
  exists l1 d l2,
    [ {[ "timestamp" := VDatetime 3%N; "aqi" := VInt 10 ]};
      {[ "timestamp" := VDatetime 7%N; "aqi" := VInt 20 ]};
      {[ "timestamp" := VDatetime 7%N; "aqi" := VInt 30 ]} ] = l1 ++ d :: l2 /\
    fst (get_latest memory_get_documents clock_isoformat 9%N
           [ {[ "timestamp" := VDatetime 3%N; "aqi" := VInt 10 ]};
             {[ "timestamp" := VDatetime 7%N; "aqi" := VInt 20 ]};
             {[ "timestamp" := VDatetime 7%N; "aqi" := VInt 30 ]} ])
    = Ok (_serialize clock_isoformat d) /\
    Forall (fun d' => older_than d' d) l1 /\
    Forall (fun d' => not_after d' d) l2.
Proof.
  split; [reflexivity|].
  destruct (get_latest_first_most_recent (list document) memory_get_documents
              clock_isoformat 9%N
              [ {[ "timestamp" := VDatetime 3%N; "aqi" := VInt 10 ]};
                {[ "timestamp" := VDatetime 7%N; "aqi" := VInt 20 ]};
                {[ "timestamp" := VDatetime 7%N; "aqi" := VInt 30 ]} ]
              _ _ eq_refl) as [_ H].
  - repeat constructor; eexists; reflexivity.
  - destruct H as (l1 & d & l2 & Hsplit & E & H1 & H2); [discriminate|].
    exists l1, d, l2. rewrite E. auto.
Defined.

Lemma get_history_ends_with_latest_witness :
  exists history,
    get_history memory_get_documents clock_isoformat (Some 2%Z)
      [reading_at 3%N; reading_at 1%N; reading_at 7%N; reading_at 5%N]
    = (Ok history, [reading_at 3%N; reading_at 1%N; reading_at 7%N; reading_at 5%N]) /\
    last history = Some (_serialize clock_isoformat (reading_at 7%N)).
Proof.
  apply (get_history_ends_with_latest (list document) memory_get_documents
           clock_isoformat (Some 2%Z) 9%N
           [reading_at 3%N; reading_at 1%N; reading_at 7%N; reading_at 5%N]
           [reading_at 3%N; reading_at 1%N; reading_at 7%N; reading_at 5%N]
           [reading_at 3%N; reading_at 1%N; reading_at 7%N; reading_at 5%N]
           [reading_at 3%N; reading_at 1%N; reading_at 7%N; reading_at 5%N]);
    [reflexivity | discriminate | reflexivity].
Defined.

Lemma get_history_suffix_witness :
  (_serialize clock_isoformat <$> [reading_at 5%N; reading_at 7%N])
  `suffix_of`
  (_serialize clock_isoformat <$> [reading_at 3%N; reading_at 5%N; reading_at 7%N]).
Proof.
  apply (get_history_suffix (list document) memory_get_documents clock_isoformat
           2 3 [reading_at 3%N; reading_at 1%N; reading_at 7%N; reading_at 5%N]
           [reading_at 3%N; reading_at 1%N; reading_at 7%N; reading_at 5%N]
           [reading_at 3%N; reading_at 1%N; reading_at 7%N; reading_at 5%N]);
    [lia | reflexivity | reflexivity].
Defined.

Lemma get_history_limit_clamped_witness :
  get_history memory_get_documents clock_isoformat (Some (-3)%Z)
    [reading_at 3%N; reading_at 1%N]
  = get_history memory_get_documents clock_isoformat (Some 1%Z)
      [reading_at 3%N; reading_at 1%N] /\
  get_history memory_get_documents clock_isoformat (Some 1000%Z)
    [reading_at 3%N; reading_at 1%N]
  = get_history memory_get_documents clock_isoformat (Some 500%Z)
      [reading_at 3%N; reading_at 1%N].
Proof.
  split.
  - apply (get_history_limit_clamped (list document) memory_get_documents
             clock_isoformat (-3)). lia.
  - apply (get_history_limit_clamped (list document) memory_get_documents
             clock_isoformat 1000). lia.
Defined.

Lemma reads_store_failure_witness :
  get_history down_get_documents clock_isoformat None []
  = (Raise (HTTPException 500 "Database error: connection refused"), []) /\
  get_latest down_get_documents clock_isoformat 9%N []
  = (Raise (HTTPException 500 "Database error: connection refused"), []).
Proof.
  destruct (reads_store_failure (list document) down_get_documents clock_isoformat
              None 9%N [] [] "connection refused" eq_refl) as (H1 & H2 & _).
  split; [exact H1 | exact H2].
Defined.

Lemma reads_type_error_witness :
  get_history memory_get_documents clock_isoformat None
    [reading_at 3%N; {[ "timestamp" := VStr "2024-01-01T00:00:00" ]}]
  = (Raise TypeError,
     [reading_at 3%N; {[ "timestamp" := VStr "2024-01-01T00:00:00" ]}]).
Proof.
  apply (reads_type_error (list document) memory_get_documents clock_isoformat
           None 9%N _ _ [reading_at 3%N] []
           {[ "timestamp" := VStr "2024-01-01T00:00:00" ]} eq_refl).
  - intros [t Ht]. discriminate.
  - repeat constructor. eexists. reflexivity.
  - discriminate.
Defined.

Lemma reads_json_safe_witness :
  Forall (fun d : document =>
            d !! "_id" = None /\ forall k t, d !! k <> Some (VDatetime t))
         (_serialize clock_isoformat <$>
            [ {[ "_id" := VObjectId "65a1"; "timestamp" := VDatetime 3%N ]} ]).
Proof.
  apply (reads_json_safe (list document) memory_get_documents clock_isoformat
           None 9%N
           [ {[ "_id" := VObjectId "65a1"; "timestamp" := VDatetime 3%N ]} ]
           [ {[ "_id" := VObjectId "65a1"; "timestamp" := VDatetime 3%N ]} ]).
  reflexivity.
Defined.

Lemma ingest_then_latest_witness :
  exists latest,
    get_latest memory_get_documents clock_isoformat 9%N
      [reading_at 3%N; ingest_data (reading 60 30) 100 "Satisfactory" 7%N]
    = (Ok latest, [reading_at 3%N; ingest_data (reading 60 30) 100 "Satisfactory" 7%N]) /\
    latest !! "aqi" = Some (VInt 100) /\
    latest !! "category" = Some (VStr "Satisfactory") /\
    latest !! "pm25" = Some (VFloat 60) /\
    latest !! "pm10" = Some (VFloat 30) /\
    latest !! "timestamp" = Some (VStr "07").
Proof.
  apply (ingest_then_latest (list document) memory_create_document
           memory_get_documents clock_isoformat (reading 60 30) 7%N 9%N
           [reading_at 3%N]
           [reading_at 3%N; ingest_data (reading 60 30) 100 "Satisfactory" 7%N]
           [reading_at 3%N; ingest_data (reading 60 30) 100 "Satisfactory" 7%N]
           [reading_at 3%N] (ingest_reply 100 "Satisfactory")).
  - reflexivity.
  - intros data id [= _ ->]. reflexivity.
  - repeat constructor. exists 3%N. split; [reflexivity | lia].
Defined.

(** ** The health report *)

(** X21: in the report of [test_database] the fields ["database_url"] and
    ["database_name"] tell only whether the two environment variables are
    set to a non-empty value: the name of the database and the handle's
    state never reach them; ["backend"] is always ["✅ Running"]. *)
Theorem test_database_env_only (db : option Database)
    (getenv : string -> option string) :
  test_database db getenv !! "backend" = Some (RStr "✅ Running") /\
  test_database db getenv !! "database_url"
  = Some (RStr (if env_set getenv "DATABASE_URL" then "✅ Set" else "❌ Not Set")) /\
  test_database db getenv !! "database_name"
  = Some (RStr (if env_set getenv "DATABASE_NAME" then "✅ Set" else "❌ Not Set")).
Proof.
  destruct db as [[name [msg|cs]]|]; repeat split; reflexivity.
Qed.

(** X22: the report never keeps its initial ["❌ Not Available"]: without
    a handle the database is "available but not initialized" and not
    connected; with a handle it is connected, working with the first ten
    collection names when they can be listed, and otherwise in error with at
    most 50 characters of the exception's message and no collection. *)
Theorem test_database_status (db : option Database)
    (getenv : string -> option string) :
  match db with
  | None =>
      test_database db getenv !! "database"
      = Some (RStr "⚠️  Available but not initialized") /\
      test_database db getenv !! "connection_status" = Some (RStr "Not Connected") /\
      test_database db getenv !! "collections" = Some (RList [])
  | Some d =>
      test_database db getenv !! "connection_status" = Some (RStr "Connected") /\
      match list_collection_names d with
      | inr names =>
          test_database db getenv !! "database" = Some (RStr "✅ Connected & Working") /\
          test_database db getenv !! "collections" = Some (RList (take 10 names)) /\
          (length (take 10 names) <= 10)%nat
      | inl msg =>
          test_database db getenv !! "database"
          = Some (RStr ("⚠️  Connected but Error: " ++ String.substring 0 50 msg)) /\
          (String.length (String.substring 0 50 msg) <= 50)%nat /\
          test_database db getenv !! "collections" = Some (RList [])
      end
  end.
Proof.
  destruct db as [[name [msg|cs]]|]; simpl; repeat split; try reflexivity.
  - apply length_substring_le.
  - rewrite length_take. lia.
Qed.

(** ** The history of a chronological log *)

Lemma older_than_not_after (a b : document) : older_than a b -> not_after a b.
Proof. intros (s & t & Hs & Ht & Hlt). exists s, t. repeat split; [assumption..|lia]. Qed.

Lemma StronglySorted_weaken {A : Type} (R1 R2 : relation A) (l : list A) :
  (forall a b, R1 a b -> R2 a b) -> StronglySorted R1 l -> StronglySorted R2 l.
Proof.
  intros HR. induction 1 as [|x l Hs IH Hall]; constructor; [exact IH|].
  eapply Forall_impl; [exact Hall|]. intros y. apply HR.
Qed.

Lemma chronological_dated (x y : document) (rest : list document) :
  StronglySorted older_than (x :: y :: rest) -> Forall dated (x :: y :: rest).
Proof.
  intros Hs. apply StronglySorted_inv in Hs as [Hs Hall].
  pose proof Hall as Hall'. apply Forall_cons_1 in Hall' as [(s & t & Hx & _) _].
  constructor; [now exists s|].
  eapply Forall_impl; [exact Hall|]. intros d (s' & t' & _ & Hd & _). now exists t'.
Qed.

(** On records stored in strictly chronological order the sort is the
    reversal. *)
Lemma py_sorted_reverse_chronological (docs : list document) :
  StronglySorted older_than docs ->
  py_sorted_reverse sort_key docs = Ok (reverse docs).
Proof.
  intros Hs. destruct docs as [|x [|y rest]]; [reflexivity..|].
  pose proof (chronological_dated x y rest Hs) as Hdated.
  destruct (py_sorted_reverse_dated _ Hdated) as (l & El & Hperm & Hsorted).
  rewrite El. f_equal.
  apply (StronglySorted_unique_strong (flip not_after)).
  - intros a b Ha Hb (s & t & Hs1 & Ht1 & Hle1) (t' & s' & Ht2 & Hs2 & Hle2).
    rewrite <- Hperm in Ha. rewrite elem_of_reverse in Hb.
    apply list_elem_of_In in Ha, Hb.
    destruct (sorted_pair _ _ a b Hs Ha Hb) as [E|[H|H]]; [exact E|exfalso..];
      destruct H as (u & v & Hu & Hv & Hlt); congruence || (
        rewrite Hu in *; rewrite Hv in *;
        repeat match goal with
               | H : VDatetime _ = VDatetime _ |- _ => injection H as ?
               end; lia).
  - exact Hsorted.
  - apply (StronglySorted_reverse not_after).
    eapply StronglySorted_weaken; [|exact Hs]. apply older_than_not_after.
  - rewrite <- Hperm. symmetry. apply reverse_Permutation.
Qed.

Section Log.

Variable store : Type.
Variable get_documents :
  string -> document -> option Z -> store -> (string + list document) * store.
Variable isoformat : datetime -> string.

(** X23: when the records are stored in strictly chronological order, each
    with a later instant than all before it, the history is the last
    [count] stored records (all of them if there are fewer), serialized, in
    the order they are stored. *)
Theorem get_history_chronological_log (limit : option Z) (st st' : store)
    (docs : list document) :
  get_documents COLLECTION ∅ None st = (inr docs, st') ->
  StronglySorted older_than docs ->
  get_history get_documents isoformat limit st
  = (Ok (_serialize isoformat <$>
           drop (length docs - Z.to_nat (clamp_count (default 50%Z limit))) docs),
     st').
Proof.
  intros Hget Hs. unfold get_history, bind, try_store, lift, ret.
  rewrite Hget, (py_sorted_reverse_chronological docs Hs), clamp_count_max_min.
  simpl. rewrite reverse_take, length_reverse, reverse_involutive. reflexivity.
Qed.

End Log.

Lemma get_history_chronological_log_witness :
  get_history memory_get_documents clock_isoformat (Some 2%Z)
    [reading_at 1%N; reading_at 3%N; reading_at 5%N; reading_at 7%N]
  = (Ok (_serialize clock_isoformat <$> [reading_at 5%N; reading_at 7%N]),
     [reading_at 1%N; reading_at 3%N; reading_at 5%N; reading_at 7%N]).
Proof.
  apply (get_history_chronological_log (list document) memory_get_documents
           clock_isoformat (Some 2%Z)
           [reading_at 1%N; reading_at 3%N; reading_at 5%N; reading_at 7%N]
           [reading_at 1%N; reading_at 3%N; reading_at 5%N; reading_at 7%N]
           [reading_at 1%N; reading_at 3%N; reading_at 5%N; reading_at 7%N] eq_refl).
  repeat (constructor; [|repeat constructor; do 2 eexists;
                         (split; [reflexivity|split; [reflexivity|lia]])]).
  constructor.
Defined.

(** * Binary64 arithmetic, the gaps between rows, and time stamps *)

(** ** The sub-index on binary64 numbers *)

Lemma binary64_scan_breakpoints_find (c : spec_float)
    (table : list Binary64.breakpoint) :
  Binary64.scan_breakpoints c table =
  match find (fun r => SFleb c (Binary64.Ch r)) table with
  | Some r =>
      match Binary64.interpolate r c with
      | Binary64.Ok v => Binary64.py_round v
      | Binary64.Raise e => Binary64.Raise e
      end
  | None => Binary64.Ok 500%Z
  end.
Proof.
  induction table as [|r rest IH]; simpl; [reflexivity|].
  destruct (SFleb c (Binary64.Ch r)); [reflexivity | exact IH].
Qed.

(** A number below zero is not above it. *)
Lemma binary64_negative_not_positive (x : spec_float) :
  SFltb x Binary64.zero = true -> SFltb Binary64.zero x = false.
Proof. destruct x as [[|]|[|]| |[|] m e]; cbv; congruence. Qed.

(** A number neither above nor below zero is a zero. *)
Lemma binary64_zero_cases (x : spec_float) :
  x <> S754_nan ->
  SFltb Binary64.zero x = false -> SFltb x Binary64.zero = false ->
  exists s, x = S754_zero s.
Proof.
  destruct x as [s|[|]| |[|] m e]; cbv; try congruence. intros. now exists s.
Qed.

Lemma binary64_clamp (Cp : spec_float) :
  Cp <> S754_nan ->
  Binary64.py_max Binary64.zero Cp = (if SFltb Cp Binary64.zero then Binary64.zero else Cp) \/
  Cp = S754_zero true.
Proof.
  intros Hnan. unfold Binary64.py_max.
  destruct (SFltb Binary64.zero Cp) eqn:Epos.
  - left. destruct (SFltb Cp Binary64.zero) eqn:Eneg; [|reflexivity].
    apply binary64_negative_not_positive in Eneg. congruence.
  - destruct (SFltb Cp Binary64.zero) eqn:Eneg; [left; reflexivity|].
    destruct (binary64_zero_cases Cp Hnan Epos Eneg) as [[|] ->]; [right|left]; reflexivity.
Qed.

Lemma binary64_calc_sub_index_negative (Cp : spec_float)
    (table : list Binary64.breakpoint) :
  SFltb Cp Binary64.zero = true ->
  Binary64._calc_sub_index Cp table = Binary64._calc_sub_index Binary64.zero table.
Proof.
  intros H. unfold Binary64._calc_sub_index, Binary64.py_max.
  rewrite (binary64_negative_not_positive Cp H). reflexivity.
Qed.

Lemma binary64_calc_sub_index_spec (Cp : spec_float)
    (table : list Binary64.breakpoint) :
  Cp <> S754_nan ->
  Binary64._calc_sub_index (S754_zero true) table
  = Binary64.spec_sub_index (S754_zero true) table ->
  Binary64._calc_sub_index Cp table = Binary64.spec_sub_index Cp table.
Proof.
  intros Hnan Hzero. destruct (binary64_clamp Cp Hnan) as [E| ->]; [|exact Hzero].
  unfold Binary64._calc_sub_index, Binary64.spec_sub_index.
  rewrite E. apply binary64_scan_breakpoints_find.
Qed.

(** C1, as the code has it: for every binary64 concentration that is a
    number, and each of the two fixed tables, the sub-index is the
    specification's, computed in binary64: a negative reading is treated as
    zero, the first row in table order with [Cp <= Chigh] is selected, and the
    interpolated value of that row, every operation rounded to binary64, is
    rounded to an integer (500 when no row is selected); every negative
    concentration gives the sub-index of 0. *)
Theorem binary64_sub_index_as_specified (Cp : spec_float) :
  Cp <> S754_nan ->
  Binary64.sub_index_pm25 Cp = Binary64.spec_sub_index Cp Binary64.bps_pm25 /\
  Binary64.sub_index_pm10 Cp = Binary64.spec_sub_index Cp Binary64.bps_pm10 /\
  (SFltb Cp Binary64.zero = true ->
   Binary64.sub_index_pm25 Cp = Binary64.sub_index_pm25 Binary64.zero /\
   Binary64.sub_index_pm10 Cp = Binary64.sub_index_pm10 Binary64.zero).
Proof.
  intros Hnan. split; [|split].
  - apply binary64_calc_sub_index_spec; [exact Hnan | vm_compute; reflexivity].
  - apply binary64_calc_sub_index_spec; [exact Hnan | vm_compute; reflexivity].
  - intros Hneg. split; apply binary64_calc_sub_index_negative; exact Hneg.
Qed.

Lemma binary64_sub_index_as_specified_witness :
  Binary64.sub_index_pm25 Binary64.double_3_3 = Binary64.Ok 6%Z /\
  Binary64.sub_index_pm25 (Binary64.of_int (-5)) = Binary64.Ok 0%Z /\
  Binary64.sub_index_pm10 (Binary64.of_int (-5)) = Binary64.Ok 0%Z.
Proof.
  split; [|split].
  - destruct (binary64_sub_index_as_specified Binary64.double_3_3) as (-> & _);
      [discriminate | vm_compute; reflexivity].
  - destruct (binary64_sub_index_as_specified (Binary64.of_int (-5))) as (_ & _ & H);
      [discriminate|].
    destruct H as [-> _]; vm_compute; reflexivity.
  - destruct (binary64_sub_index_as_specified (Binary64.of_int (-5))) as (_ & _ & H);
      [discriminate|].
    destruct H as [_ ->]; vm_compute; reflexivity.
Defined.

(** At the double nearest to 3.3 the interpolated value of the first PM2.5
    row is computed as exactly 5.5, a tie, and the sub-index is 6; the exact
    value of the formula at that double is below 5.5, and its rounding, the
    sub-index of the real-number reading of the claim, is 5. *)
Lemma sub_index_not_the_real_formula :
  Binary64.to_Q (Binary64.interpolated (Binary64.row 0 30 0 50) Binary64.double_3_3)
    = Some ((inject_Z 6192449487634432) * Qpower 2 (-50)) /\
  (inject_Z 6192449487634432) * Qpower 2 (-50) == 11 # 2 /\
  Binary64.sub_index_pm25 Binary64.double_3_3 = Binary64.Ok 6%Z /\
  match Binary64.to_Q Binary64.double_3_3 with
  | Some q =>
      interpolated (Breakpoint 0 30 0 50) q < 11 # 2 /\
      spec_sub_index q bps_pm25 = 5%Z /\
      Binary64.sub_index_pm25 Binary64.double_3_3
        <> Binary64.Ok (spec_sub_index q bps_pm25)
  | None => False
  end.
Proof.
  split; [vm_compute; reflexivity|].
  split; [vm_compute; reflexivity|].
  split; [vm_compute; reflexivity|].
  split; [vm_compute; reflexivity|].
  split; [vm_compute; reflexivity|].
  vm_compute. discriminate.
Qed.

(** X4: on binary64 numbers [_calc_sub_index] raises in three cases, all
    decided by the row its loop stops at: [ZeroDivisionError] when
    [Chigh - Clow] is a zero, and otherwise the exceptions of [round],
    [OverflowError] when the interpolated value is an infinity and
    [ValueError] when it is NaN; it does not raise when the loop stops at no
    row. *)
Theorem binary64_calc_sub_index_raises (Cp : spec_float)
    (table : list Binary64.breakpoint) (e : Binary64.exn) :
  Binary64._calc_sub_index Cp table = Binary64.Raise e <->
  exists r,
    find (fun r => SFleb (Binary64.py_max Binary64.zero Cp) (Binary64.Ch r)) table
      = Some r /\
    match e with
    | Binary64.ZeroDivisionError =>
        SFeqb (Binary64.fsub (Binary64.Ch r) (Binary64.Cl r)) Binary64.zero = true
    | Binary64.OverflowError =>
        SFeqb (Binary64.fsub (Binary64.Ch r) (Binary64.Cl r)) Binary64.zero = false /\
        exists s,
          Binary64.interpolated r (Binary64.py_max Binary64.zero Cp) = S754_infinity s
    | Binary64.ValueError =>
        SFeqb (Binary64.fsub (Binary64.Ch r) (Binary64.Cl r)) Binary64.zero = false /\
        Binary64.interpolated r (Binary64.py_max Binary64.zero Cp) = S754_nan
    end.
Proof.
  unfold Binary64._calc_sub_index.
  generalize (Binary64.py_max Binary64.zero Cp) as c. intros c.
  rewrite binary64_scan_breakpoints_find.
  destruct (find _ table) as [r|];
    [|split; [discriminate | intros (r & H & _); discriminate]].
  unfold Binary64.interpolate.
  destruct (SFeqb (Binary64.fsub (Binary64.Ch r) (Binary64.Cl r)) Binary64.zero) eqn:Ez;
    [|destruct (Binary64.interpolated r c) as [s|s| |s m x] eqn:Ei; simpl];
    (split;
     [ intros H;
       first [ discriminate H
             | injection H as <-; exists r; split; [reflexivity|]; eauto ]
     | intros (r' & Hr & H); injection Hr as <-;
       destruct e; first
         [ reflexivity
         | exfalso; congruence
         | exfalso; destruct H as (H1 & H2); congruence
         | exfalso; destruct H as (H1 & s' & H2); congruence ] ]).
Qed.

Lemma binary64_calc_sub_index_raises_witness :
  Binary64._calc_sub_index (Binary64.of_int 1)
    [Binary64.Breakpoint (Binary64.of_int 0) (Binary64.of_int 10)
       (Binary64.of_int (- 10 ^ 308)) (Binary64.of_int (10 ^ 308))]
  = Binary64.Raise Binary64.OverflowError /\
  Binary64._calc_sub_index (Binary64.of_int 0)
    [Binary64.Breakpoint (Binary64.of_int 0) (Binary64.of_int 10)
       (Binary64.of_int (- 10 ^ 308)) (Binary64.of_int (10 ^ 308))]
  = Binary64.Raise Binary64.ValueError /\
  Binary64._calc_sub_index (Binary64.of_int 5) [Binary64.row 10 10 0 50]
  = Binary64.Raise Binary64.ZeroDivisionError.
Proof.
  split; [|split].
  - apply binary64_calc_sub_index_raises. eexists. split; [vm_compute; reflexivity|].
    split; [vm_compute; reflexivity|]. eexists. vm_compute. reflexivity.
  - apply binary64_calc_sub_index_raises. eexists. split; [vm_compute; reflexivity|].
    split; vm_compute; reflexivity.
  - apply binary64_calc_sub_index_raises. eexists. split; vm_compute; reflexivity.
Defined.

(** ** Monotonicity of the sub-indices *)

Lemma sub_index_pm25_monotone_outside_gaps (c1 c2 : Q) :
  c1 <= c2 -> ~ between_low_rows_pm25 c2 ->
  exists i1 i2 : Z,
    sub_index_pm25 c1 = Ok i1 /\ sub_index_pm25 c2 = Ok i2 /\ (i1 <= i2 + 0)%Z.
Proof.
  intros H Hgap.
  assert (Hb : ~ between_low_rows_pm25 (py_max 0 c2)).
  { destruct (Qlt_le_dec 0 c2) as [Hpos|Hneg].
    - pose proof (py_max_0_nonneg c2 (Qlt_le_weak _ _ Hpos)) as E.
      unfold between_low_rows_pm25 in *. rewrite E. exact Hgap.
    - rewrite (py_max_0_neg c2 Hneg). unfold between_low_rows_pm25. lra. }
  apply py_max_0_mono in H.
  unfold sub_index_pm25, _calc_sub_index, bps_pm25.
  pose proof (py_max_0_ge c1) as H0.
  set (a := py_max 0 c1) in *. set (b := py_max 0 c2) in *. clearbody a b.
  unfold between_low_rows_pm25 in Hb. clear Hgap.
  scan_rows a; scan_rows b;
    (do 2 eexists; split; [reflexivity|]; split; [reflexivity|]);
    two_points 0%Z.
Qed.

(** C3, as the code has it: the PM10 sub-index is monotonically
    non-decreasing over all concentrations; the PM2.5 sub-index is
    monotonically non-decreasing for all [c1 <= c2] unless [c2] lies strictly
    between two of the rows 0-30, 31-60, 61-90 and 91-120. *)
Theorem sub_index_monotone_outside_gaps (c1 c2 : Q) :
  c1 <= c2 ->
  (exists i1 i2 : Z,
     sub_index_pm10 c1 = Ok i1 /\ sub_index_pm10 c2 = Ok i2 /\ (i1 <= i2)%Z) /\
  (~ between_low_rows_pm25 c2 ->
   exists i1 i2 : Z,
     sub_index_pm25 c1 = Ok i1 /\ sub_index_pm25 c2 = Ok i2 /\ (i1 <= i2)%Z).
Proof.
  intros H. split.
  - destruct (sub_index_pm10_dip_at_most_0 c1 c2 H) as (i1 & i2 & H1 & H2 & Hle).
    exists i1, i2. repeat split; [assumption..|lia].
  - intros Hgap.
    destruct (sub_index_pm25_monotone_outside_gaps c1 c2 H Hgap)
      as (i1 & i2 & H1 & H2 & Hle).
    exists i1, i2. repeat split; [assumption..|lia].
Qed.

Lemma sub_index_monotone_outside_gaps_witness :
  exists i1 i2 : Z,
    sub_index_pm25 (61 # 2) = Ok i1 /\ sub_index_pm25 31 = Ok i2 /\ (i1 <= i2)%Z.
Proof.
  apply (sub_index_monotone_outside_gaps (61 # 2) 31); [lra|].
  unfold between_low_rows_pm25. lra.
Defined.

(** Between the first two PM2.5 rows the sub-index falls: 30 gives 50 and
    30.01, a larger concentration below the table's maximum 350, gives 49,
    on the rationals and on the doubles alike. *)
Lemma sub_index_pm25_not_monotone :
  30 <= 3001 # 100 /\ 3001 # 100 <= 350 /\
  sub_index_pm25 30 = Ok 50%Z /\ sub_index_pm25 (3001 # 100) = Ok 49%Z /\
  Binary64.sub_index_pm25 (Binary64.of_int 30) = Binary64.Ok 50%Z /\
  Binary64.sub_index_pm25 Binary64.double_30_01 = Binary64.Ok 49%Z /\
  ~ (exists i1 i2 : Z,
       sub_index_pm25 30 = Ok i1 /\ sub_index_pm25 (3001 # 100) = Ok i2 /\
       (i1 <= i2)%Z).
Proof.
  split; [lra|]. split; [lra|].
  split; [reflexivity|]. split; [reflexivity|].
  split; [vm_compute; reflexivity|]. split; [vm_compute; reflexivity|].
  intros (i1 & i2 & H1 & H2 & Hle).
  vm_compute in H1, H2. injection H1 as <-. injection H2 as <-. lia.
Qed.

(** ** The window of the history *)

Lemma reading_time_sort_key (d : document) (t : datetime) :
  reading_time d = Some t -> sort_key d = VDatetime t.
Proof.
  unfold reading_time, sort_key, py_or, dict_get.
  destruct (d !! "timestamp") as [[]|]; try discriminate.
  intros [= <-]. reflexivity.
Qed.

Lemma stamped_dated (d : document) : is_Some (reading_time d) -> dated d.
Proof. intros [t Ht]. exists t. now apply reading_time_sort_key. Qed.

Lemma stamped_no_later (d1 d2 : document) :
  is_Some (reading_time d1) -> is_Some (reading_time d2) ->
  not_after d1 d2 -> no_later d1 d2.
Proof.
  intros [s Hs] [t Ht] (s' & t' & Hs' & Ht' & Hle).
  rewrite (reading_time_sort_key d1 s Hs) in Hs'.
  rewrite (reading_time_sort_key d2 t Ht) in Ht'.
  injection Hs' as <-. injection Ht' as <-. now exists s, t.
Qed.

Section Window.

Variable store : Type.
Variable get_documents :
  string -> document -> option Z -> store -> (string + list document) * store.
Variable isoformat : datetime -> string.

(** C9, as the code has it: the history endpoint clamps the requested count
    to [[1, 500]] and takes 50 when no count is given; when every stored
    record carries an instant under ["timestamp"], it returns (serialized)
    that many of the records with the latest time stamps, or all of them
    when there are fewer, in chronological order, oldest first. *)
Theorem get_history_recent_window (limit : option Z) (st st' : store)
    (docs : list document) :
  get_documents COLLECTION ∅ None st = (inr docs, st') ->
  Forall (fun d => is_Some (reading_time d)) docs ->
  let count := clamp_count (default 50%Z limit) in
  (1 <= count <= 500)%Z /\
  (limit = None -> count = 50%Z) /\
  exists older window : list document,
    get_history get_documents isoformat limit st
      = (Ok (_serialize isoformat <$> window), st') /\
    length window = Nat.min (Z.to_nat count) (length docs) /\
    docs ≡ₚ older ++ window /\
    (forall d d', d ∈ older -> d' ∈ window -> no_later d d') /\
    StronglySorted no_later window.
Proof.
  intros Hget Hstamped count.
  assert (Hdated : Forall dated docs).
  { eapply Forall_impl; [exact Hstamped|]. apply stamped_dated. }
  destruct (get_history_window_by_key store get_documents isoformat limit st st'
              docs Hget Hdated)
    as (Hrange & Hdefault & older & window & E & Hlen & Hperm & Hcross & Hsorted).
  split; [exact Hrange|]. split; [exact Hdefault|].
  exists older, window.
  assert (Hall : Forall (fun d => is_Some (reading_time d)) (older ++ window))
    by (now rewrite <- Hperm).
  apply Forall_app in Hall as [Holder Hwindow].
  rewrite Forall_forall in Holder, Hwindow.
  split; [exact E|]. split; [exact Hlen|]. split; [exact Hperm|]. split.
  - intros d d' Hd Hd'. apply stamped_no_later; auto.
  - clear E Hlen Hperm Hcross.
    induction Hsorted as [|x l Hs IH Hx]; constructor.
    + apply IH. intros d Hd. apply Hwindow. now right.
    + rewrite Forall_forall in Hx. apply Forall_forall. intros y Hy.
      apply stamped_no_later; [apply Hwindow; left | apply Hwindow; now right | auto].
Qed.

End Window.

Lemma get_history_recent_window_witness :
  exists older window : list document,
    fst (get_history memory_get_documents clock_isoformat (Some 2%Z)
           [reading_at 3%N; reading_at 1%N; reading_at 7%N; reading_at 5%N])
    = Ok (_serialize clock_isoformat <$> window) /\
    length window = 2%nat /\
    (forall d d', d ∈ older -> d' ∈ window -> no_later d d') /\
    StronglySorted no_later window.
Proof.
  destruct (get_history_recent_window (list document) memory_get_documents
              clock_isoformat (Some 2%Z)
              [reading_at 3%N; reading_at 1%N; reading_at 7%N; reading_at 5%N]
              [reading_at 3%N; reading_at 1%N; reading_at 7%N; reading_at 5%N]
              [reading_at 3%N; reading_at 1%N; reading_at 7%N; reading_at 5%N]
              eq_refl)
    as (_ & _ & older & window & E & Hlen & _ & Hcross & Hsorted).
  - repeat constructor; eexists; reflexivity.
  - exists older, window. rewrite E. repeat split; assumption.
Defined.

(** A stored record whose time stamp is kept as a string, beside one whose
    time stamp is an instant: the history endpoint raises [TypeError] and
    returns no records. *)
Lemma get_history_raises_on_string_timestamp :
  get_history memory_get_documents clock_isoformat None
    [reading_at 3%N; {[ "timestamp" := VStr "2024-01-01T00:00:00" ]}]
  = (Raise TypeError,
     [reading_at 3%N; {[ "timestamp" := VStr "2024-01-01T00:00:00" ]}]) /\
  forall window : list document,
    fst (get_history memory_get_documents clock_isoformat None
           [reading_at 3%N; {[ "timestamp" := VStr "2024-01-01T00:00:00" ]}])
    <> Ok window.
Proof.
  split; [reflexivity|]. intros window. vm_compute. discriminate.
Qed.
